(** * cuDNN convolution dispatch layer (aten/src/ATen/native/cudnn/ConvShared.cpp)

    A shallow embedding of the shared cuDNN convolution front end: argument
    checking, geometry, allocation of results and dispatch to the raw
    backend primitives.  Tensors are records of their geometry, type,
    device, layout and storage; the raw primitives of Conv_v7.cpp and
    Conv_v8.cpp are an interface ([RawBackend]); every call made through it
    is logged, so that statements about "no backend call" are statements
    about the log. *)

From Stdlib Require Import ZArith List String Ascii Bool Lia DecimalString.
Import ListNotations.
Local Open Scope string_scope.
Local Open Scope Z_scope.

(* ------------------------------------------------------------------ *)
(** ** Machine integers and printing *)

Module Int.

(** Conversion of an [int64_t] to [int] (32-bit two's complement), as
    happens when an element of an [IntArrayRef] is bound to a parameter
    of type [int]. *)
Definition to_int (x : Z) : Z := (x + 2 ^ 31) mod 2 ^ 32 - 2 ^ 31.

(** Conversion of an [int64_t] to [size_t] (64-bit, modular). *)
Definition to_size_t (x : Z) : Z := x mod 2 ^ 64.

(** Values representable in an [int]. *)
Definition in_int (x : Z) : Prop := - 2 ^ 31 <= x < 2 ^ 31.

(** [operator<<] on an integer: its decimal form. *)
Definition show (x : Z) : string := NilZero.string_of_int (Z.to_int x).

End Int.

(** [Scalar::to<float>()] on an integral [Scalar]: the nearest value with
    a 24-bit significand, ties to the even significand (an [int64_t] never
    overflows a [float]).  A [Scalar] holding a fraction is outside the
    model: scalars are integers here, and so are the [float]s that reach
    the primitives. *)
Definition Scalar_to_float (x : Z) : Z :=
  let a := Z.abs x in
  if a <? 2 ^ 24 then x
  else
    let dropped := Z.log2 a - 23 in
    let significand := Z.shiftr a dropped in
    let rest := a mod 2 ^ dropped in
    let half := 2 ^ (dropped - 1) in
    let rounded :=
      if (rest >? half) || ((rest =? half) && Z.odd significand)
      then significand + 1 else significand in
    Z.sgn x * (rounded * 2 ^ dropped).

(* ------------------------------------------------------------------ *)
(** ** Errors and results *)

(** The exceptions that leave the layer.  [TORCH_CHECK] and [AT_ERROR]
    raise a [c10::Error] carrying a message; the specification calls it
    InvalidArgument.  An out-of-range [size(dim)] raises [IndexError];
    a failure of a raw primitive is a [BackendError]. *)
Inductive Error : Type :=
| InvalidArgument (msg : string)
| IndexError (msg : string)
| BackendError (msg : string).

Inductive Result (A : Type) : Type :=
| Ok (a : A)
| Raise (e : Error).
Arguments Ok {A} a.
Arguments Raise {A} e.

Definition is_ok {A} (r : Result A) : bool :=
  match r with Ok _ => true | Raise _ => false end.

Definition rbind {A B} (r : Result A) (k : A -> Result B) : Result B :=
  match r with Ok a => k a | Raise e => Raise e end.

Notation "'check' r ';;' k" := (rbind r (fun _ => k))
  (at level 61, r at next level, right associativity).

(** [TORCH_CHECK(cond, msg...)] *)
Definition TORCH_CHECK (cond : bool) (msg : string) : Result unit :=
  if cond then Ok tt else Raise (InvalidArgument msg).

(* ------------------------------------------------------------------ *)
(** ** Tensors *)

Inductive ScalarType : Type := kFloat | kDouble | kHalf | kBFloat16 | kLong.

Inductive Device : Type := kCPU | kCUDA (index : Z).

Inductive MemoryFormat : Type := Contiguous | ChannelsLast | ChannelsLast3d.

(** What a buffer holds: [at::empty] allocates without writing;
    [at::zeros] and the backend primitives write every element. *)
Inductive Storage : Type :=
| Uninitialized
| Values (vs : list Z).

Record Tensor : Type := mkTensor {
  defined : bool;
  sizes : list Z;
  scalar_type : ScalarType;
  device : Device;
  memory_format : MemoryFormat;
  storage : Storage
}.

(** A default-constructed [Tensor]. *)
Definition undefined_tensor : Tensor :=
  mkTensor false [0] kFloat kCPU Contiguous Uninitialized.

Definition dim (t : Tensor) : Z := Z.of_nat (List.length (sizes t)).

Definition numel (t : Tensor) : Z := fold_right Z.mul 1 (sizes t).

Definition size (t : Tensor) (d : nat) : Result Z :=
  match nth_error (sizes t) d with
  | Some n => Ok n
  | None => Raise (IndexError ("Dimension out of range (got " ++ Int.show (Z.of_nat d) ++ ")"))
  end.

Definition suggest_memory_format (t : Tensor) : MemoryFormat := memory_format t.

(** [t.contiguous(memory_format)]: the same values, laid out as asked. *)
Definition contiguous (t : Tensor) (mf : MemoryFormat) : Tensor :=
  mkTensor (defined t) (sizes t) (scalar_type t) (device t) mf (storage t).

Definition zero_values (shape : list Z) : Storage :=
  Values (repeat 0 (Z.to_nat (fold_right Z.mul 1 shape))).

Definition ScalarType_eqb (a b : ScalarType) : bool :=
  match a, b with
  | kFloat, kFloat | kDouble, kDouble | kHalf, kHalf
  | kBFloat16, kBFloat16 | kLong, kLong => true
  | _, _ => false
  end.

Definition MemoryFormat_eqb (a b : MemoryFormat) : bool :=
  match a, b with
  | Contiguous, Contiguous | ChannelsLast, ChannelsLast
  | ChannelsLast3d, ChannelsLast3d => true
  | _, _ => false
  end.

(** A tensor together with the name and position it is reported under
    ([TensorArg], [TensorGeometryArg]). *)
Record TensorArg : Type := mkTensorArg {
  tensor : Tensor;
  name : string;
  pos : Z
}.

Definition CheckedFrom : Type := string.

(** [operator<<] on a [TensorGeometryArg]. *)
Definition show_arg (t : TensorArg) : string :=
  if pos t =? 0 then "'" ++ name t ++ "'"
  else "argument #" ++ Int.show (pos t) ++ " '" ++ name t ++ "'".

Definition while_checking (c : CheckedFrom) : string :=
  " (while checking arguments for " ++ c ++ ")".

(* ------------------------------------------------------------------ *)
(** ** Process-wide configuration *)

(** [at::globalContext()] and [at::cuda::current_device()], read at call
    time. *)
Record GlobalContext : Type := mkGlobalContext {
  allowTF32CuDNN : bool;
  allowTF32CuBLAS : bool;
  benchmarkCuDNN : bool;
  deterministicCuDNN : bool;
  current_device : Z
}.

(* ------------------------------------------------------------------ *)
(** ** Allocation *)

(** Modelled from the spec: the Allocator (ATen's tensor factories, not
    part of this file) produces a tensor of the given size, dtype, layout
    and device.  [empty] factories leave the storage unwritten, [zeros]
    factories write 0 everywhere. *)
Definition empty_cuda (ctx : GlobalContext) (shape : list Z) (dtype : ScalarType)
    (mf : MemoryFormat) : Tensor :=
  mkTensor true shape dtype (kCUDA (current_device ctx)) mf Uninitialized.

(** [at::empty(size, like->options(), memory_format)] *)
Definition empty_options (shape : list Z) (like : Tensor) (mf : MemoryFormat) : Tensor :=
  mkTensor true shape (scalar_type like) (device like) mf Uninitialized.

(** [at::empty_like(t, LEGACY_CONTIGUOUS_MEMORY_FORMAT)] *)
Definition empty_like (t : Tensor) : Tensor :=
  mkTensor true (sizes t) (scalar_type t) (device t) Contiguous Uninitialized.

(** [at::zeros_like(t, LEGACY_CONTIGUOUS_MEMORY_FORMAT)] *)
Definition zeros_like (t : Tensor) : Tensor :=
  mkTensor true (sizes t) (scalar_type t) (device t) Contiguous (zero_values (sizes t)).

(** [at::native::zeros(size, dtype, layout, device, pin_memory)] with the
    options of [like]. *)
Definition zeros (shape : list Z) (like : Tensor) : Tensor :=
  mkTensor true shape (scalar_type like) (device like) Contiguous (zero_values shape).

(* ------------------------------------------------------------------ *)
(** ** Checking *)

Definition count_if {A} (p : A -> bool) (l : list A) : Z :=
  Z.of_nat (List.length (filter p l)).

(** The lambda [[](int x){return x < 0;}]: its argument is narrowed from
    [int64_t] to [int] before the comparison. *)
Definition is_negative_int (x : Z) : bool := Int.to_int x <? 0.

(** [std::copy(first, last - 1, std::ostream_iterator<int>(ss, ", "))] *)
Definition copy_ints (l : list Z) : string :=
  String.concat "" (map (fun x => Int.show (Int.to_int x) ++ ", ") l).

(** Used on pad, stride and dilation.  [expected_size] is a [size_t]. *)
Definition check_args (c : CheckedFrom) (args : list Z) (expected_size : Z)
    (arg_name : string) : Result unit :=
  let args_size := Z.of_nat (List.length args) in
  check TORCH_CHECK (args_size <=? expected_size)
          ("Too many " ++ arg_name ++ " values (" ++ Int.show args_size
           ++ ") supplied, expecting " ++ Int.show expected_size ++ while_checking c) ;;
  check TORCH_CHECK (args_size >=? expected_size)
          ("Not enough " ++ arg_name ++ " values (" ++ Int.show args_size
           ++ ") supplied, expecting " ++ Int.show expected_size ++ while_checking c) ;;
  let num_negative_values := count_if is_negative_int args in
  if num_negative_values >? 0 then
    Raise (InvalidArgument
             (arg_name ++ " should be greater than zero but got ("
              ++ copy_ints (removelast args) ++ Int.show (last args 0) ++ ")"
              ++ while_checking c))
  else Ok tt.

(** Modelled from the spec: the argument checks of ATen's TensorUtils
    (not part of this file), which fail with InvalidArgument on a rank,
    size, dtype or device mismatch and name the call site. *)
Definition checkDimRange (c : CheckedFrom) (t : TensorArg) (dim_start dim_end : Z)
    : Result unit :=
  TORCH_CHECK ((dim_start <=? dim (tensor t)) && (dim (tensor t) <? dim_end))
    ("Expected " ++ Int.show dim_start ++ " to " ++ Int.show (dim_end - 1)
     ++ " dimensions, but got " ++ Int.show (dim (tensor t))
     ++ "-dimensional tensor for " ++ show_arg t ++ while_checking c).

(** Modelled from the spec: see [checkDimRange]. *)
Definition checkSize (c : CheckedFrom) (t : TensorArg) (d : nat) (n : Z) : Result unit :=
  rbind (size (tensor t) d) (fun got =>
  TORCH_CHECK (got =? n)
    ("Expected tensor to have size " ++ Int.show n ++ " at dimension "
     ++ Int.show (Z.of_nat d) ++ ", but got size " ++ Int.show got ++ " for "
     ++ show_arg t ++ while_checking c)).

(** Modelled from the spec: see [checkDimRange]. *)
Definition checkSameDim (c : CheckedFrom) (t1 t2 : TensorArg) : Result unit :=
  TORCH_CHECK (dim (tensor t1) =? dim (tensor t2))
    ("Expected tensor to have " ++ Int.show (dim (tensor t1))
     ++ " dimensions, but got " ++ Int.show (dim (tensor t2))
     ++ " dimensions for " ++ show_arg t2 ++ while_checking c).

(** Modelled from the spec: both operands have the same dtype. *)
Definition checkAllSameType (c : CheckedFrom) (t1 t2 : TensorArg) : Result unit :=
  TORCH_CHECK (ScalarType_eqb (scalar_type (tensor t1)) (scalar_type (tensor t2)))
    ("Expected tensor for " ++ show_arg t1 ++ " to have the same type as tensor for "
     ++ show_arg t2 ++ while_checking c).

(** Modelled from the spec: both operands live on the same GPU. *)
Definition checkAllSameGPU (c : CheckedFrom) (t1 t2 : TensorArg) : Result unit :=
  TORCH_CHECK
    match device (tensor t1), device (tensor t2) with
    | kCUDA i, kCUDA j => i =? j
    | _, _ => false
    end
    ("Expected tensor for " ++ show_arg t1 ++ " to have the same device as tensor for "
     ++ show_arg t2 ++ while_checking c).

Definition input_channels_dim : nat := 1.

(** NOTE [ Convolution checks ]: one function for forward and all
    backward variants.  [weight->size(1) * groups] is an [int64_t]
    product; signed overflow is undefined behaviour in C++ and is given no
    meaning here (the product is taken in [Z]). *)
Definition convolution_shape_check (c : CheckedFrom) (input weight output : TensorArg)
    (padding stride dilation : list Z) (groups : Z) : Result unit :=
  check check_args c padding (Int.to_size_t (dim (tensor input) - 2)) "padding" ;;
  check check_args c stride (Z.of_nat (List.length padding)) "stride" ;;
  check check_args c dilation (Z.of_nat (List.length padding)) "dilation" ;;
  (* Input *)
  check checkDimRange c input 3 6 ;;
  rbind (size (tensor weight) 1) (fun w1 =>
  check checkSize c input input_channels_dim (w1 * groups) ;;
  (* Weight *)
  check checkSameDim c input weight ;;
  checkSameDim c input output).

(* ------------------------------------------------------------------ *)
(** ** Geometry *)

(** Modelled from the spec: [conv_output_size] and [conv_input_size] live
    in ATen/native/ConvUtils.h, which is not part of this file.  Per
    spatial dimension the forward size is
    [floor((in + 2·pad − dilation·(kernel−1) − 1) / stride) + 1]. *)
Definition conv_output_dim (input kernel pad stride dilation : Z) : Z :=
  (input + 2 * pad - dilation * (kernel - 1) - 1) / stride + 1.

(** Modelled from the spec: per spatial dimension the transposed size is
    [(out−1)·stride − 2·pad + dilation·(kernel−1) + output_padding + 1]. *)
Definition conv_input_dim (output kernel pad output_padding stride dilation : Z) : Z :=
  (output - 1) * stride - 2 * pad + dilation * (kernel - 1) + output_padding + 1.

(** Modelled from the spec: the output keeps the batch size of the input,
    takes its channel count from [weight_size[0]] and applies
    [conv_output_dim] to every spatial dimension. *)
Definition conv_output_size (input_size weight_size padding stride dilation : list Z)
    : list Z :=
  match input_size, weight_size with
  | n :: _ :: ins, oc :: _ :: ks =>
      n :: oc ::
        map (fun i => conv_output_dim (nth i ins 0) (nth i ks 0) (nth i padding 0)
                        (nth i stride 0) (nth i dilation 0))
            (seq 0 (List.length ins))
  | _, _ => []
  end.

(** Modelled from the spec: the transposed result keeps the batch size,
    has [weight_size[1] * groups] channels and applies [conv_input_dim]
    to every spatial dimension. *)
Definition conv_input_size (output_size weight_size padding output_padding stride
    dilation : list Z) (groups : Z) : list Z :=
  match output_size, weight_size with
  | n :: _ :: outs, _ :: ic :: ks =>
      n :: ic * groups ::
        map (fun i => conv_input_dim (nth i outs 0) (nth i ks 0) (nth i padding 0)
                        (nth i output_padding 0) (nth i stride 0) (nth i dilation 0))
            (seq 0 (List.length outs))
  | _, _ => []
  end.

(** Modelled from the spec: [cudnn_conv_suggest_memory_format] (also in
    ConvUtils.h) answers channels-last or channels-last-3d only if both
    operands already favour that layout, otherwise contiguous. *)
Definition cudnn_conv_suggest_memory_format (a b : Tensor) : MemoryFormat :=
  match suggest_memory_format a, suggest_memory_format b with
  | ChannelsLast, ChannelsLast => ChannelsLast
  | ChannelsLast3d, ChannelsLast3d => ChannelsLast3d
  | _, _ => Contiguous
  end.

(* ------------------------------------------------------------------ *)
(** ** The raw execution backend *)

Inductive Primitive : Type :=
| ForwardOut
| BackwardInputOut
| BackwardWeightOut
| AddReluOut
| AddReluFallbackOut.

(** One invocation of a raw primitive, with everything it was handed. *)
Record BackendCall : Type := mkBackendCall {
  primitive : Primitive;
  call_output : Tensor;
  call_operands : list Tensor;
  call_alpha : option Z;
  call_geometry : list Z * list Z * list Z * Z;
  call_benchmark : bool;
  call_deterministic : bool;
  call_allow_tf32 : bool
}.

(** The primitives of Conv_v7.cpp / Conv_v8.cpp.  Each takes the
    pre-allocated output first and yields the output as written, or a
    BackendError.  Which fused primitive is used is fixed at build time by
    the macro [AT_CUDNN_CONV_BIAS_RELU_FALLBACK]. *)
Class RawBackend : Type := {
  raw_cudnn_convolution_forward_out :
    Tensor -> Tensor -> Tensor -> list Z -> list Z -> list Z -> Z ->
    bool -> bool -> bool -> Result Tensor;
  raw_cudnn_convolution_backward_input_out :
    Tensor -> Tensor -> Tensor -> list Z -> list Z -> list Z -> Z ->
    bool -> bool -> bool -> Result Tensor;
  raw_cudnn_convolution_backward_weight_out :
    Tensor -> Tensor -> Tensor -> list Z -> list Z -> list Z -> Z ->
    bool -> bool -> bool -> Result Tensor;
  raw_cudnn_convolution_add_relu_out :
    Tensor -> Tensor -> Tensor -> Tensor -> Z -> Tensor ->
    list Z -> list Z -> list Z -> Z -> bool -> bool -> bool -> Result Tensor;
  raw_cudnn_convolution_add_relu_fallback_out :
    Tensor -> Tensor -> Tensor -> Tensor -> Z -> Tensor ->
    list Z -> list Z -> list Z -> Z -> bool -> bool -> bool -> Result Tensor;
  AT_CUDNN_CONV_BIAS_RELU_FALLBACK : bool
}.

(* ------------------------------------------------------------------ *)
(** ** Dispatch monad: errors, and the log of backend calls *)

Definition Log : Type := list BackendCall.

Definition M (A : Type) : Type := Log -> Result A * Log.

Definition ret {A} (a : A) : M A := fun log => (Ok a, log).

Definition bind {A B} (m : M A) (k : A -> M B) : M B :=
  fun log =>
    match m log with
    | (Ok a, log') => k a log'
    | (Raise e, log') => (Raise e, log')
    end.

Definition lift {A} (r : Result A) : M A := fun log => (r, log).

Definition invoke (call : BackendCall) (r : Result Tensor) : M Tensor :=
  fun log => (r, (log ++ [call])%list).

Notation "x <- m ;; k" := (bind m (fun x => k))
  (at level 61, m at next level, right associativity).
Notation "'run' m ;; k" := (bind m (fun _ => k))
  (at level 61, m at next level, right associativity).

(* ------------------------------------------------------------------ *)
(** ** Dispatchers *)

Section Dispatch.

Context {backend : RawBackend}.

Definition raw_forward (output input weight : Tensor)
    (padding stride dilation : list Z) (groups : Z)
    (benchmark deterministic allow_tf32 : bool) : M Tensor :=
  invoke (mkBackendCall ForwardOut output [input; weight] None
            (padding, stride, dilation, groups) benchmark deterministic allow_tf32)
         (raw_cudnn_convolution_forward_out output input weight
            padding stride dilation groups benchmark deterministic allow_tf32).

Definition raw_backward_input (grad_input grad_output weight : Tensor)
    (padding stride dilation : list Z) (groups : Z)
    (benchmark deterministic allow_tf32 : bool) : M Tensor :=
  invoke (mkBackendCall BackwardInputOut grad_input [grad_output; weight] None
            (padding, stride, dilation, groups) benchmark deterministic allow_tf32)
         (raw_cudnn_convolution_backward_input_out grad_input grad_output weight
            padding stride dilation groups benchmark deterministic allow_tf32).

Definition raw_backward_weight (grad_weight grad_output input : Tensor)
    (padding stride dilation : list Z) (groups : Z)
    (benchmark deterministic allow_tf32 : bool) : M Tensor :=
  invoke (mkBackendCall BackwardWeightOut grad_weight [grad_output; input] None
            (padding, stride, dilation, groups) benchmark deterministic allow_tf32)
         (raw_cudnn_convolution_backward_weight_out grad_weight grad_output input
            padding stride dilation groups benchmark deterministic allow_tf32).

(** The [#ifdef AT_CUDNN_CONV_BIAS_RELU_FALLBACK] ... [#else] ... [#endif]
    block shared by the two fused dispatchers. *)
Definition raw_add_relu (output input weight z : Tensor) (alpha : Z) (bias : Tensor)
    (stride padding dilation : list Z) (groups : Z)
    (benchmark deterministic allow_tf32 : bool) : M Tensor :=
  if AT_CUDNN_CONV_BIAS_RELU_FALLBACK then
    invoke (mkBackendCall AddReluFallbackOut output [input; weight; z; bias] (Some alpha)
              (padding, stride, dilation, groups) benchmark deterministic allow_tf32)
           (raw_cudnn_convolution_add_relu_fallback_out output input weight z alpha bias
              stride padding dilation groups benchmark deterministic allow_tf32)
  else
    invoke (mkBackendCall AddReluOut output [input; weight; z; bias] (Some alpha)
              (padding, stride, dilation, groups) benchmark deterministic allow_tf32)
           (raw_cudnn_convolution_add_relu_out output input weight z alpha bias
              stride padding dilation groups benchmark deterministic allow_tf32).

(** *** Convolution forward / Transposed convolution backward *)

Definition cudnn_convolution_forward (ctx : GlobalContext) (c : CheckedFrom)
    (input weight : TensorArg) (padding stride dilation : list Z) (groups : Z)
    (benchmark deterministic allow_tf32 : bool) : M Tensor :=
  run lift (checkAllSameType c input weight) ;;
  run lift (checkAllSameGPU c input weight) ;;
  let memory_format := cudnn_conv_suggest_memory_format (tensor input) (tensor weight) in
  let output_t :=
    empty_cuda ctx
      (conv_output_size (sizes (tensor input)) (sizes (tensor weight))
         padding stride dilation)
      (scalar_type (tensor input)) memory_format in
  if numel output_t =? 0 then ret output_t
  else
    (* Avoid ambiguity of "output" when this is being used as backwards *)
    let output := mkTensorArg output_t "result" 0 in
    run lift (convolution_shape_check c input weight output padding stride dilation groups) ;;
    let weight_contig := contiguous (tensor weight) memory_format in
    let input_contig := contiguous (tensor input) memory_format in
    raw_forward (tensor output) input_contig weight_contig
      padding stride dilation groups benchmark deterministic allow_tf32.

Definition cudnn_convolution (ctx : GlobalContext) (input_t weight_t : Tensor)
    (padding stride dilation : list Z) (groups : Z)
    (benchmark deterministic allow_tf32 : bool) : M Tensor :=
  let input := mkTensorArg input_t "input" 1 in
  let weight := mkTensorArg weight_t "weight" 2 in
  let c := "cudnn_convolution" in
  cudnn_convolution_forward ctx c input weight padding stride dilation groups
    benchmark deterministic allow_tf32.

(** NB: output_padding not needed here, as there is no ambiguity to
    resolve *)
Definition cudnn_convolution_transpose_backward_input (ctx : GlobalContext)
    (grad_output_t weight_t : Tensor) (padding stride dilation : list Z) (groups : Z)
    (benchmark deterministic allow_tf32 : bool) : M Tensor :=
  let grad_output := mkTensorArg grad_output_t "grad_output" 1 in
  let weight := mkTensorArg weight_t "weight" 2 in
  cudnn_convolution_forward ctx "cudnn_convolution_transpose_backward_input"
    grad_output weight padding stride dilation groups benchmark deterministic allow_tf32.

(** *** Convolution backward / Transposed convolution forward *)

(** The overload taking a [CheckedFrom] and [TensorArg]s. *)
Definition cudnn_convolution_backward_input_c (ctx : GlobalContext) (c : CheckedFrom)
    (input_size : list Z) (grad_output weight : TensorArg)
    (padding stride dilation : list Z) (groups : Z)
    (benchmark deterministic allow_tf32 : bool) : M Tensor :=
  run lift (checkAllSameType c grad_output weight) ;;
  run lift (checkAllSameGPU c grad_output weight) ;;
  let memory_format :=
    cudnn_conv_suggest_memory_format (tensor grad_output) (tensor weight) in
  let grad_input_t :=
    empty_cuda ctx input_size (scalar_type (tensor grad_output)) memory_format in
  (* Avoid "grad_input" when this is being used as transposed convolution *)
  let grad_input := mkTensorArg grad_input_t "result" 0 in
  run lift (convolution_shape_check c grad_input weight grad_output
              padding stride dilation groups) ;;
  let weight_contig := contiguous (tensor weight) memory_format in
  let grad_output_contig := contiguous (tensor grad_output) memory_format in
  raw_backward_input (tensor grad_input) grad_output_contig weight_contig
    padding stride dilation groups benchmark deterministic allow_tf32.

Definition cudnn_convolution_transpose_forward (ctx : GlobalContext) (c : CheckedFrom)
    (grad_output weight : TensorArg)
    (padding output_padding stride dilation : list Z) (groups : Z)
    (benchmark deterministic allow_tf32 : bool) : M Tensor :=
  let input_size :=
    conv_input_size (sizes (tensor grad_output)) (sizes (tensor weight))
      padding output_padding stride dilation groups in
  cudnn_convolution_backward_input_c ctx c input_size grad_output weight
    padding stride dilation groups benchmark deterministic allow_tf32.

Definition cudnn_convolution_backward_input (ctx : GlobalContext)
    (input_size : list Z) (grad_output_t weight_t : Tensor)
    (padding stride dilation : list Z) (groups : Z)
    (benchmark deterministic allow_tf32 : bool) : M Tensor :=
  let grad_output := mkTensorArg grad_output_t "grad_output" 1 in
  let weight := mkTensorArg weight_t "weight" 2 in
  cudnn_convolution_backward_input_c ctx "cudnn_convolution_backward_input"
    input_size grad_output weight
    padding stride dilation groups benchmark deterministic allow_tf32.

Definition cudnn_convolution_transpose (ctx : GlobalContext) (input_t weight_t : Tensor)
    (padding output_padding stride dilation : list Z) (groups : Z)
    (benchmark deterministic allow_tf32 : bool) : M Tensor :=
  let input := mkTensorArg input_t "input" 1 in
  let weight := mkTensorArg weight_t "weight" 2 in
  let c := "cudnn_convolution_transpose" in
  cudnn_convolution_transpose_forward ctx c input weight
    padding output_padding stride dilation groups benchmark deterministic allow_tf32.

(** *** Convolution backward (weight) *)

(** The overload taking a [CheckedFrom]. *)
Definition cudnn_convolution_backward_weight_c (c : CheckedFrom)
    (weight_size : list Z) (grad_output_t input_t : Tensor)
    (padding stride dilation : list Z) (groups : Z)
    (benchmark deterministic allow_tf32 : bool) : M Tensor :=
  let layout := cudnn_conv_suggest_memory_format input_t grad_output_t in
  let grad_output_contig_t := contiguous grad_output_t layout in
  let grad_output_contig := mkTensorArg grad_output_contig_t "grad_output" 1 in
  let input_contig_t := contiguous input_t layout in
  let input := mkTensorArg input_contig_t "input" 2 in
  run lift (checkAllSameType c grad_output_contig input) ;;
  run lift (checkAllSameGPU c grad_output_contig input) ;;
  let grad_weight_t := empty_options weight_size (tensor grad_output_contig) layout in
  (* For uniformity with everything else, although it seems grad_weight
     would be unambiguous too. *)
  let grad_weight := mkTensorArg grad_weight_t "result" 0 in
  run lift (convolution_shape_check c input grad_weight grad_output_contig
              padding stride dilation groups) ;;
  raw_backward_weight (tensor grad_weight) (tensor grad_output_contig) (tensor input)
    padding stride dilation groups benchmark deterministic allow_tf32.

Definition cudnn_convolution_backward_weight
    (weight_size : list Z) (grad_output_t input_t : Tensor)
    (padding stride dilation : list Z) (groups : Z)
    (benchmark deterministic allow_tf32 : bool) : M Tensor :=
  cudnn_convolution_backward_weight_c "cudnn_convolution_backward_weight"
    weight_size grad_output_t input_t
    padding stride dilation groups benchmark deterministic allow_tf32.

Definition cudnn_convolution_backward (ctx : GlobalContext)
    (input grad_output_t weight : Tensor)
    (padding stride dilation : list Z) (groups : Z)
    (benchmark deterministic allow_tf32 : bool) (output_mask : bool * bool)
    : M (Tensor * Tensor) :=
  let grad_output := contiguous grad_output_t (suggest_memory_format input) in
  if numel input =? 0 then
    let grad_input := if fst output_mask then empty_like input else undefined_tensor in
    let grad_weight := if snd output_mask then zeros_like weight else undefined_tensor in
    ret (grad_input, grad_weight)
  else
    grad_input <-
      (if fst output_mask then
         cudnn_convolution_backward_input ctx (sizes input) grad_output weight
           padding stride dilation groups benchmark deterministic allow_tf32
       else ret undefined_tensor) ;;
    grad_weight <-
      (if snd output_mask then
         cudnn_convolution_backward_weight (sizes weight) grad_output input
           padding stride dilation groups benchmark deterministic allow_tf32
       else ret undefined_tensor) ;;
    ret (grad_input, grad_weight).

Definition cudnn_convolution_transpose_backward_weight
    (weight_size : list Z) (grad_output_t input_t : Tensor)
    (padding stride dilation : list Z) (groups : Z)
    (benchmark deterministic allow_tf32 : bool) : M Tensor :=
  cudnn_convolution_backward_weight_c "cudnn_convolution_backward_weight"
    weight_size input_t grad_output_t
    padding stride dilation groups benchmark deterministic allow_tf32.

Definition cudnn_convolution_transpose_backward (ctx : GlobalContext)
    (input grad_output_t weight : Tensor)
    (padding output_padding stride dilation : list Z) (groups : Z)
    (benchmark deterministic allow_tf32 : bool) (output_mask : bool * bool)
    : M (Tensor * Tensor) :=
  let grad_output := contiguous grad_output_t (suggest_memory_format input) in
  grad_input <-
    (if fst output_mask then
       cudnn_convolution_transpose_backward_input ctx grad_output weight
         padding stride dilation groups benchmark deterministic allow_tf32
     else ret undefined_tensor) ;;
  grad_weight <-
    (if snd output_mask then
       cudnn_convolution_transpose_backward_weight (sizes weight) grad_output input
         padding stride dilation groups benchmark deterministic allow_tf32
     else ret undefined_tensor) ;;
  ret (grad_input, grad_weight).

(** *** Fused convolution + bias + activation *)

(** The bias handed to the fused primitive: the caller's, or zeros of
    shape [{output_t.size(1)}] with the options of the output. *)
Definition bias_or_zeros (bias_t : option Tensor) (output_t : Tensor) : M Tensor :=
  match bias_t with
  | Some b => ret b
  | None => n <- lift (size output_t 1) ;; ret (zeros [n] output_t)
  end.

Definition cudnn_convolution_relu (ctx : GlobalContext)
    (input_t weight_t : Tensor) (bias_t : option Tensor)
    (stride padding dilation : list Z) (groups : Z) : M Tensor :=
  let memory_format := cudnn_conv_suggest_memory_format input_t weight_t in
  let input := contiguous input_t memory_format in
  let weight := contiguous weight_t memory_format in
  (* FuseFrozenConvAddRelu performs some tensor shape checking *)
  let output_t :=
    empty_cuda ctx
      (conv_output_size (sizes input) (sizes weight) padding stride dilation)
      (scalar_type input) memory_format in
  if numel output_t =? 0 then ret output_t
  else
    let allow_tf32 := allowTF32CuDNN ctx in
    _bias <- bias_or_zeros bias_t output_t ;;
    raw_add_relu output_t input weight
      output_t (* use output_t as z to satisfy CUDNN API *)
      0 (* alpha *)
      _bias stride padding dilation groups
      false (* benchmark *)
      false (* deterministic *)
      allow_tf32.

(** [alpha] is a [c10::optional<Scalar>], read with [to<float>()]; when
    it is absent the scale is [1.0]. *)
Definition cudnn_convolution_add_relu (ctx : GlobalContext)
    (input_t weight_t z_t : Tensor) (alpha : option Z) (bias_t : option Tensor)
    (stride padding dilation : list Z) (groups : Z) : M Tensor :=
  let memory_format := cudnn_conv_suggest_memory_format input_t weight_t in
  let input := contiguous input_t memory_format in
  let weight := contiguous weight_t memory_format in
  (* FuseFrozenConvAddRelu performs some tensor shape checking *)
  let output_t :=
    empty_cuda ctx
      (conv_output_size (sizes input) (sizes weight) padding stride dilation)
      (scalar_type input) memory_format in
  if numel output_t =? 0 then ret output_t
  else
    let allow_tf32 := allowTF32CuDNN ctx in
    let _alpha := match alpha with Some a => Scalar_to_float a | None => 1 end in
    _bias <- bias_or_zeros bias_t output_t ;;
    raw_add_relu output_t input weight z_t _alpha
      _bias stride padding dilation groups
      false (* benchmark *)
      false (* deterministic *)
      allow_tf32.

End Dispatch.

(* ------------------------------------------------------------------ *)
(** ** Contracts of the backend and conditions of the specification *)

Definition FusedPrimitive : Type :=
  Tensor -> Tensor -> Tensor -> Tensor -> Z -> Tensor ->
  list Z -> list Z -> list Z -> Z -> bool -> bool -> bool -> Result Tensor.

(** The fused primitive selected at build time. *)
Definition fused_primitive (backend : RawBackend) : FusedPrimitive :=
  if AT_CUDNN_CONV_BIAS_RELU_FALLBACK
  then raw_cudnn_convolution_add_relu_fallback_out
  else raw_cudnn_convolution_add_relu_out.

(** The tag under which the selected fused primitive is logged. *)
Definition fused_tag (backend : RawBackend) : Primitive :=
  if AT_CUDNN_CONV_BIAS_RELU_FALLBACK then AddReluFallbackOut else AddReluOut.

(** The requirements of [convolution_shape_check] in the words of the
    specification (section 4.1), to be compared with the code. *)
Definition spec_shape_conditions (input weight output : Tensor)
    (padding stride dilation : list Z) (groups : Z) : Prop :=
  Z.of_nat (List.length padding) = dim input - 2 /\
  Z.of_nat (List.length stride) = dim input - 2 /\
  Z.of_nat (List.length dilation) = dim input - 2 /\
  3 <= dim input <= 5 /\
  (exists in_channels_per_group,
      nth_error (sizes weight) 1 = Some in_channels_per_group /\
      nth_error (sizes input) 1 = Some (in_channels_per_group * groups)) /\
  dim weight = dim input /\
  dim output = dim input.

(** Entries that are non-negative and representable as [int]. *)
Definition small_nonneg (x : Z) : Prop := 0 <= x < 2 ^ 31.

(** An error message names the call site [c] when it ends with the
    "while checking arguments for" clause. *)
Definition names_call_site (c : CheckedFrom) (r : Result unit) : Prop :=
  exists before, r = Raise (InvalidArgument (before ++ while_checking c)).

(** The flags of a logged backend call. *)
Definition call_flags (call : BackendCall) : bool * bool * bool :=
  (call_benchmark call, call_deterministic call, call_allow_tf32 call).

(** The output the forward and fused dispatchers allocate: sized by
    [conv_output_size], typed after the input, in the resolved layout. *)
Definition allocated_output (ctx : GlobalContext) (input_t weight_t : Tensor)
    (padding stride dilation : list Z) : Tensor :=
  empty_cuda ctx
    (conv_output_size (sizes input_t) (sizes weight_t) padding stride dilation)
    (scalar_type input_t) (cudnn_conv_suggest_memory_format input_t weight_t).

(* ------------------------------------------------------------------ *)
(** ** A reference backend, for concrete runs *)

Module Reference.

Definition elements (t : Tensor) : list Z :=
  match storage t with Values vs => vs | Uninitialized => [] end.

Definition write (t : Tensor) (vs : list Z) : Tensor :=
  mkTensor (defined t) (sizes t) (scalar_type t) (device t) (memory_format t) (Values vs).

Definition sum (l : list Z) : Z := fold_right Z.add 0 l.

Definition positions (t : Tensor) : list nat := seq 0 (Z.to_nat (numel t)).

(** Channel of the element at flat index [i] of a contiguous tensor. *)
Definition channel_of (shape : list Z) (i : nat) : nat :=
  match shape with
  | _ :: c :: spatial => Z.to_nat ((Z.of_nat i / fold_right Z.mul 1 spatial) mod c)
  | _ => 0%nat
  end.

(** A stand-in for the convolution sum: it only has to be some function
    of the two operands. *)
Definition conv_term (a b : Tensor) : Z := sum (elements a) * sum (elements b).

Definition plain (output a b : Tensor) (padding stride dilation : list Z) (groups : Z)
    (bm dt tf : bool) : Result Tensor :=
  Ok (write output (map (fun _ => conv_term a b) (positions output))).

(** Modelled from the spec: the fused primitive computes
    [relu(conv(input, weight) + bias + alpha·z)]. *)
Definition add_relu : FusedPrimitive :=
  fun output input weight z alpha bias stride padding dilation groups bm dt tf =>
    Ok (write output
          (map (fun i => Z.max 0 (conv_term input weight
                                  + nth (channel_of (sizes output) i) (elements bias) 0
                                  + alpha * nth i (elements z) 0))
               (positions output))).

Definition backend : RawBackend := {|
  raw_cudnn_convolution_forward_out := plain;
  raw_cudnn_convolution_backward_input_out := plain;
  raw_cudnn_convolution_backward_weight_out := plain;
  raw_cudnn_convolution_add_relu_out := add_relu;
  raw_cudnn_convolution_add_relu_fallback_out := add_relu;
  AT_CUDNN_CONV_BIAS_RELU_FALLBACK := false
|}.

Definition ctx : GlobalContext := mkGlobalContext true false false false 0.

(** The same process with benchmark and deterministic mode switched on. *)
Definition ctx_benchmark_deterministic : GlobalContext :=
  mkGlobalContext true false true true 0.

Definition cuda_tensor (shape : list Z) (vs : list Z) : Tensor :=
  mkTensor true shape kFloat (kCUDA 0) Contiguous (Values vs).

(** A 1-D convolution: batch 1, one channel, length 5, kernel 3. *)
Definition input5 : Tensor := cuda_tensor [1; 1; 5] [1; 2; 3; 4; 5].
Definition weight3 : Tensor := cuda_tensor [1; 1; 3] [1; 2; -1].
Definition output3 : Tensor := cuda_tensor [1; 1; 3] [0; 0; 0].
Definition residual3 : Tensor := cuda_tensor [1; 1; 3] [7; -8; 9].

(** The same with an empty batch. *)
Definition input_empty : Tensor := cuda_tensor [0; 1; 5] [].
Definition output_empty : Tensor := cuda_tensor [0; 1; 3] [].

End Reference.

(* ------------------------------------------------------------------ *)
(** ** ConvolutionParams *)

(** The values of cuDNN's data type enumeration that this file tells
    apart; every other value is [CUDNN_DATA_OTHER]. *)
Inductive cudnnDataType_t : Type :=
| CUDNN_DATA_FLOAT
| CUDNN_DATA_DOUBLE
| CUDNN_DATA_HALF
| CUDNN_DATA_OTHER (code : Z).

(** Modelled from the spec: a convolution has at most three spatial
    dimensions ([max_dim] of ConvShared.h, which sizes the arrays of
    [ConvolutionParams]: [2 + max_dim] sizes, [max_dim] paddings). *)
Definition max_dim : nat := 3.

(** Conversion of an [int64_t] to [uint8_t]. *)
Definition to_uint8 (x : Z) : Z := x mod 2 ^ 8.

(** [a[i] = v] on a C array kept as a list.  A write past the end of the
    array is undefined behaviour in C++; here it leaves the list as it
    is, and the statements below assume the index in range. *)
Fixpoint array_set (i : nat) (v : Z) (a : list Z) : list Z :=
  match a, i with
  | [], _ => []
  | _ :: a', O => v :: a'
  | x :: a', S i' => x :: array_set i' v a'
  end.

Module Params.

(** Modelled from the spec (section 3) and from the fields this file
    reads and writes: the struct [ConvolutionParams] of ConvShared.h.
    [input_size] and [weight_size] are [int[2 + max_dim]]; [padding],
    [stride] and [dilation] are [int[max_dim]]; [input_dim] is a
    [uint8_t]; [groups] is an [int64_t]. *)
Record ConvolutionParams : Type := mk {
  device_id : Z;
  dataType : cudnnDataType_t;
  input_size : list Z;
  input_dim : Z;
  memory_format : MemoryFormat;
  weight_size : list Z;
  padding : list Z;
  stride : list Z;
  dilation : list Z;
  groups : Z;
  deterministic : bool;
  allow_tf32 : bool
}.

End Params.

(** [memset(params, 0, sizeof(ConvolutionParams))] *)
Definition memset_zero : Params.ConvolutionParams :=
  Params.mk 0 CUDNN_DATA_FLOAT (repeat 0 (2 + max_dim)) 0 Contiguous
    (repeat 0 (2 + max_dim)) (repeat 0 max_dim) (repeat 0 max_dim) (repeat 0 max_dim)
    0 false false.

(** The body of the first loop of [setConvolutionParams]. *)
Definition set_sizes (input weight : Tensor) (params : Params.ConvolutionParams) (i : nat)
    : Params.ConvolutionParams :=
  Params.mk (Params.device_id params) (Params.dataType params)
    (array_set i (Int.to_int (nth i (sizes input) 0)) (Params.input_size params))
    (Params.input_dim params) (Params.memory_format params)
    (array_set i (Int.to_int (nth i (sizes weight) 0)) (Params.weight_size params))
    (Params.padding params) (Params.stride params) (Params.dilation params)
    (Params.groups params) (Params.deterministic params) (Params.allow_tf32 params).

(** The body of the second loop of [setConvolutionParams]. *)
Definition set_geometry (padding stride dilation : list Z)
    (params : Params.ConvolutionParams) (i : nat) : Params.ConvolutionParams :=
  Params.mk (Params.device_id params) (Params.dataType params)
    (Params.input_size params) (Params.input_dim params) (Params.memory_format params)
    (Params.weight_size params)
    (array_set i (Int.to_int (nth i padding 0)) (Params.padding params))
    (array_set i (Int.to_int (nth i stride 0)) (Params.stride params))
    (array_set i (Int.to_int (nth i dilation 0)) (Params.dilation params))
    (Params.groups params) (Params.deterministic params) (Params.allow_tf32 params).

Definition pybool (b : bool) : string := if b then "True" else "False".

(** The newline character. *)
Definition nl : string := String "010" "".

Section Diagnostics.

(** [getCudnnDataType] and [cudnnTypeToString] (ATen/cudnn) and
    [operator<<] on an [ArrayRef<int>] (c10) are not part of this file. *)
Variable getCudnnDataType : Tensor -> Result cudnnDataType_t.
Variable cudnnTypeToString : cudnnDataType_t -> string.
Variable show_ints : list Z -> string.

(** [operator<<(std::ostream&, const ConvolutionParams&)]: the text it
    appends to the stream.  [ArrayRef<int>{params.padding}] is the whole
    array. *)
Definition print_ConvolutionParams (params : Params.ConvolutionParams) : string :=
  "ConvolutionParams " ++ nl
  ++ "    data_type = " ++ cudnnTypeToString (Params.dataType params) ++ nl
  ++ "    padding = " ++ show_ints (Params.padding params) ++ nl
  ++ "    stride = " ++ show_ints (Params.stride params) ++ nl
  ++ "    dilation = " ++ show_ints (Params.dilation params) ++ nl
  ++ "    groups = " ++ Int.show (Params.groups params) ++ nl
  ++ "    deterministic = " ++ (if Params.deterministic params then "true" else "false") ++ nl
  ++ "    allow_tf32 = " ++ (if Params.allow_tf32 params then "true" else "false") ++ nl.

(** NB: This can't be a constructor, because then ConvolutionParams
    would not be a POD anymore.  [params] is the struct the caller hands
    in, with whatever it held. *)
Definition setConvolutionParams (ctx : GlobalContext) (params : Params.ConvolutionParams)
    (input weight : Tensor) (padding stride dilation : list Z) (groups : Z)
    (deterministic allow_tf32 : bool) : Result Params.ConvolutionParams :=
  rbind (getCudnnDataType input) (fun dataType =>
  let params := memset_zero in
  let params :=
    Params.mk (current_device ctx) dataType (Params.input_size params)
      (* ASSERT(weight.dim() == input.dim()) *)
      (to_uint8 (dim input)) (suggest_memory_format input)
      (Params.weight_size params) (Params.padding params) (Params.stride params)
      (Params.dilation params) (Params.groups params) (Params.deterministic params)
      (Params.allow_tf32 params) in
  let params :=
    fold_left (set_sizes input weight) (seq 0 (Z.to_nat (Params.input_dim params))) params in
  (* ASSERT(padding.size() == stride.size()) *)
  (* ASSERT(padding.size() == dilation.size()) *)
  let params :=
    fold_left (set_geometry padding stride dilation) (seq 0 (List.length padding)) params in
  (* In principle, we shouldn't parametrize by groups for legacy
     CuDNN, but it doesn't seem worth the effort to actually do this. *)
  Ok (Params.mk (Params.device_id params) (Params.dataType params)
        (Params.input_size params) (Params.input_dim params) (Params.memory_format params)
        (Params.weight_size params) (Params.padding params) (Params.stride params)
        (Params.dilation params) groups deterministic allow_tf32)).

Definition repro_from_args (ctx : GlobalContext) (params : Params.ConvolutionParams)
    : string :=
  let partial_dtype :=
    match Params.dataType params with
    | CUDNN_DATA_FLOAT => "float"
    | CUDNN_DATA_DOUBLE => "double"
    | CUDNN_DATA_HALF => "half"
    | _ => "unsupported"
    end in
  let full_dtype := "torch." ++ partial_dtype in
  let out_channels := nth 0 (Params.weight_size params) 0 in
  let in_channels := Int.to_int (nth 1 (Params.weight_size params) 0 * Params.groups params) in
  let dim := Params.input_dim params in
  let channels_last_xd := if dim =? 4 then "channels_last" else "channels_last_3d" in
  let to_channels_last :=
    match Params.memory_format params with
    | ChannelsLast | ChannelsLast3d => ".to(memory_format=torch." ++ channels_last_xd ++ ")"
    | Contiguous => ""
    end in
  "You can try to repro this exception using the following code snippet. "
  ++ "If that doesn't trigger the error, please include your original repro script when reporting this issue."
  ++ nl ++ nl
  ++ "import torch" ++ nl
  ++ "torch.backends.cuda.matmul.allow_tf32 = " ++ pybool (allowTF32CuBLAS ctx) ++ nl
  ++ "torch.backends.cudnn.benchmark = " ++ pybool (benchmarkCuDNN ctx) ++ nl
  ++ "torch.backends.cudnn.deterministic = " ++ pybool (Params.deterministic params) ++ nl
  ++ "torch.backends.cudnn.allow_tf32 = " ++ pybool (Params.allow_tf32 params) ++ nl
  ++ "data = torch.randn(" ++ show_ints (firstn (Z.to_nat dim) (Params.input_size params))
  ++ ", dtype=" ++ full_dtype ++ ", "
  ++ "device='cuda', requires_grad=True)" ++ to_channels_last ++ nl
  ++ "net = torch.nn.Conv" ++ Int.show (Int.to_size_t (dim - 2)) ++ "d("
  ++ Int.show in_channels ++ ", " ++ Int.show out_channels ++ ", "
  ++ "kernel_size="
  ++ show_ints (firstn (Z.to_nat (Int.to_size_t (dim - 2))) (skipn 2 (Params.weight_size params)))
  ++ ", "
  ++ "padding="
  ++ show_ints (firstn (Z.to_nat (Int.to_size_t (dim - 2))) (Params.padding params)) ++ ", "
  ++ "stride="
  ++ show_ints (firstn (Z.to_nat (Int.to_size_t (dim - 2))) (Params.stride params)) ++ ", "
  ++ "dilation="
  ++ show_ints (firstn (Z.to_nat (Int.to_size_t (dim - 2))) (Params.dilation params)) ++ ", "
  ++ "groups=" ++ Int.show (Params.groups params) ++ ")" ++ nl
  ++ "net = net.cuda()." ++ partial_dtype ++ "()" ++ to_channels_last ++ nl
  ++ "out = net(data)" ++ nl
  ++ "out.backward(torch.randn_like(out))" ++ nl
  ++ "torch.cuda.synchronize()" ++ nl ++ nl.

End Diagnostics.

(** [s] occurs in [t]. *)
Definition occurs_in (s t : string) : Prop := exists before after, t = before ++ s ++ after.

(* ------------------------------------------------------------------ *)
(** ** In-place primitives *)

(** A primitive that writes into the output it is handed returns a
    tensor with the geometry, type, device and layout of that output. *)
Definition same_geometry (r output : Tensor) : Prop :=
  defined r = defined output /\ sizes r = sizes output /\
  scalar_type r = scalar_type output /\ device r = device output /\
  memory_format r = memory_format output.

Definition writes_in_place (backend : RawBackend) : Prop :=
  (forall output a b padding stride dilation groups bm dt tf r,
     raw_cudnn_convolution_forward_out output a b padding stride dilation groups bm dt tf
     = Ok r -> same_geometry r output) /\
  (forall output a b padding stride dilation groups bm dt tf r,
     raw_cudnn_convolution_backward_input_out output a b padding stride dilation groups
       bm dt tf = Ok r -> same_geometry r output) /\
  (forall output a b padding stride dilation groups bm dt tf r,
     raw_cudnn_convolution_backward_weight_out output a b padding stride dilation groups
       bm dt tf = Ok r -> same_geometry r output) /\
  (forall output a b z alpha bias stride padding dilation groups bm dt tf r,
     fused_primitive backend output a b z alpha bias stride padding dilation groups
       bm dt tf = Ok r -> same_geometry r output).

(** The primitives a stretch of the log invoked, in order. *)
Definition primitives (calls : Log) : list Primitive := map primitive calls.

(* ------------------------------------------------------------------ *)
(** ** Stand-ins for the diagnostics helpers, for concrete runs *)

Module ReferenceDiagnostics.

Definition getCudnnDataType (t : Tensor) : Result cudnnDataType_t :=
  match scalar_type t with
  | kFloat => Ok CUDNN_DATA_FLOAT
  | kDouble => Ok CUDNN_DATA_DOUBLE
  | kHalf => Ok CUDNN_DATA_HALF
  | _ => Raise (InvalidArgument "getCudnnDataType() not supported")
  end.

Definition cudnnTypeToString (t : cudnnDataType_t) : string :=
  match t with
  | CUDNN_DATA_FLOAT => "CUDNN_DATA_FLOAT"
  | CUDNN_DATA_DOUBLE => "CUDNN_DATA_DOUBLE"
  | CUDNN_DATA_HALF => "CUDNN_DATA_HALF"
  | CUDNN_DATA_OTHER code => "Data Type " ++ Int.show code
  end.

Definition show_ints (l : list Z) : string :=
  "[" ++ String.concat ", " (map Int.show l) ++ "]".

(** A 2-D convolution: batch 2, 4 channels in 2 groups, 8x8 input,
    6 output channels, 3x3 kernel. *)
Definition input2d : Tensor :=
  mkTensor true [2; 4; 8; 8] kHalf (kCUDA 0) ChannelsLast Uninitialized.
Definition weight2d : Tensor :=
  mkTensor true [6; 2; 3; 3] kHalf (kCUDA 0) ChannelsLast Uninitialized.

End ReferenceDiagnostics.

(* ------------------------------------------------------------------ *)
(** ** The fused primitive as the specification describes it *)

(** Channel of the element at flat position [i] of a contiguous tensor
    of the given shape. *)
Definition channel_at (shape : list Z) (i : nat) : nat :=
  match shape with
  | _ :: channels :: spatial =>
      Z.to_nat ((Z.of_nat i / fold_right Z.mul 1 spatial) mod channels)
  | _ => 0%nat
  end.

Definition relu (x : Z) : Z := Z.max 0 x.

Section SpecBackend.

(** The convolution sum is cuDNN's:
    [conv input weight padding stride dilation groups i] stands for the
    value of [conv(input, weight)] at the flat position [i] of the
    output.  [unwritten i] is what a buffer that was never written
    happens to hold at position [i]. *)
Variable conv : Tensor -> Tensor -> list Z -> list Z -> list Z -> Z -> nat -> Z.
Variable unwritten : nat -> Z.

Definition read (t : Tensor) (i : nat) : Z :=
  match storage t with
  | Values vs => nth i vs 0
  | Uninitialized => unwritten i
  end.

(** Modelled from the spec: the fused primitive (Conv_v7.cpp and
    Conv_v8.cpp, not part of this file) computes
    [relu(conv(input, weight) + bias + alpha·z)], one bias entry per
    output channel, into the output it is handed.  Values are exact
    integers: rounding is outside the model. *)
Definition spec_add_relu : FusedPrimitive :=
  fun output input weight z alpha bias stride padding dilation groups bm dt tf =>
    Ok (mkTensor (defined output) (sizes output) (scalar_type output) (device output)
          (memory_format output)
          (Values
             (map (fun i => relu (conv input weight padding stride dilation groups i
                                  + read bias (channel_at (sizes output) i)
                                  + alpha * read z i))
                  (seq 0 (Z.to_nat (numel output)))))).

(** Modelled from the spec: the fallback primitive has the same contract
    as the fused one.  The other primitives and the build-time choice
    are those of [base]. *)
Definition with_spec_fused (base : RawBackend) : RawBackend := {|
  raw_cudnn_convolution_forward_out := raw_cudnn_convolution_forward_out;
  raw_cudnn_convolution_backward_input_out := raw_cudnn_convolution_backward_input_out;
  raw_cudnn_convolution_backward_weight_out := raw_cudnn_convolution_backward_weight_out;
  raw_cudnn_convolution_add_relu_out := spec_add_relu;
  raw_cudnn_convolution_add_relu_fallback_out := spec_add_relu;
  AT_CUDNN_CONV_BIAS_RELU_FALLBACK := AT_CUDNN_CONV_BIAS_RELU_FALLBACK
|}.

End SpecBackend.

(** A 1-D, single-channel cross-correlation, to run [spec_add_relu] on
    concrete tensors. *)
Definition correlate_1d (input weight : Tensor) (padding stride dilation : list Z)
    (groups : Z) (i : nat) : Z :=
  let x := Reference.elements input in
  let w := Reference.elements weight in
  Reference.sum
    (map (fun j =>
            let k := Z.of_nat i * nth 0 stride 1 + Z.of_nat j * nth 0 dilation 1
                     - nth 0 padding 0 in
            nth j w 0 * (if 0 <=? k then nth (Z.to_nat k) x 0 else 0))
         (seq 0 (List.length w))).

(* ------------------------------------------------------------------ *)
(** ** Notions used to state how runs compare *)

(** A dispatcher run that touches the backend at most once, with the
    primitive [prim]: it either fails or returns without a call, or logs
    exactly one call of [prim]. *)
Definition one_call_at_most (prim : Primitive) (log : Log)
    (outcome : Result Tensor * Log) : Prop :=
  exists calls, snd outcome = (log ++ calls)%list /\
                (calls = [] \/ (exists call, calls = [call] /\ primitive call = prim)) /\
                (calls = [] -> is_ok (fst outcome) = true -> prim = ForwardOut).

(** Two mask-selected steps in sequence, as both orchestrators run them. *)
Definition masked_pair (output_mask : bool * bool) (first second : M Tensor)
    : M (Tensor * Tensor) :=
  grad_input <- (if fst output_mask then first else ret undefined_tensor) ;;
  grad_weight <- (if snd output_mask then second else ret undefined_tensor) ;;
  ret (grad_input, grad_weight).

(** Two outcomes that differ at most in the text of an InvalidArgument. *)
Definition agree_up_to_message {A} (r1 r2 : Result A) : Prop :=
  match r1, r2 with
  | Ok a, Ok b => a = b
  | Raise (InvalidArgument _), Raise (InvalidArgument _) => True
  | Raise e1, Raise e2 => e1 = e2
  | _, _ => False
  end.

(** Two runs that log the same calls and agree up to such a text. *)
Definition same_run {A} (m1 m2 : M A) : Prop :=
  forall log, snd (m1 log) = snd (m2 log) /\ agree_up_to_message (fst (m1 log)) (fst (m2 log)).

(* ------------------------------------------------------------------ *)
(** * Properties *)

(** ** Integers and strings *)

Lemma to_int_small (x : Z) : Int.in_int x -> Int.to_int x = x.
Proof.
  unfold Int.in_int, Int.to_int. intros Hx.
  rewrite Z.mod_small; lia.
Qed.

Lemma to_int_range (x : Z) : Int.in_int (Int.to_int x).
Proof.
  unfold Int.in_int, Int.to_int.
  pose proof (Z.mod_pos_bound (x + 2 ^ 31) (2 ^ 32)). lia.
Qed.

Lemma to_size_t_small (x : Z) : 0 <= x < 2 ^ 64 -> Int.to_size_t x = x.
Proof. unfold Int.to_size_t. intros Hx. now apply Z.mod_small. Qed.

Lemma string_app_assoc (a b c : string) : (a ++ b) ++ c = a ++ (b ++ c).
Proof. induction a as [|ch a IH]; simpl; [reflexivity | now rewrite IH]. Qed.

Lemma is_negative_int_small (x : Z) : small_nonneg x -> is_negative_int x = false.
Proof.
  unfold small_nonneg, is_negative_int. intros Hx.
  rewrite to_int_small by (unfold Int.in_int; lia).
  apply Z.ltb_ge. lia.
Qed.

(** ** [check_args] *)

Lemma count_if_none {A} (p : A -> bool) (l : list A) :
  (count_if p l >? 0) = false <-> Forall (fun x => p x = false) l.
Proof.
  unfold count_if. induction l as [|x l IH]; simpl.
  - split; [constructor | reflexivity].
  - destruct (p x) eqn:Hp; simpl.
    + split.
      * intros H. destruct (Z.gtb_spec (Z.of_nat (S (List.length (filter p l)))) 0); [discriminate | lia].
      * intros H. inversion H; congruence.
    + rewrite IH. split.
      * intros H. now constructor.
      * intros H. now inversion H.
Qed.

(** The exact condition under which the code accepts a list: the right
    length, and no entry that is negative once narrowed to [int]. *)
Lemma check_args_ok_iff (c : CheckedFrom) (args : list Z) (n : Z) (arg_name : string) :
  check_args c args n arg_name = Ok tt <->
  Z.of_nat (List.length args) = n /\ Forall (fun x => is_negative_int x = false) args.
Proof.
  unfold check_args, TORCH_CHECK.
  destruct (Z.leb_spec (Z.of_nat (List.length args)) n) as [Hle|Hgt]; simpl.
  - destruct (Z.geb_spec (Z.of_nat (List.length args)) n) as [Hge|Hlt]; simpl.
    + destruct (count_if is_negative_int args >? 0) eqn:Hc.
      * split; [discriminate|]. intros [_ Hall].
        apply count_if_none in Hall. congruence.
      * apply count_if_none in Hc. split; [intros _; split; [lia | assumption] | reflexivity].
    + split; [discriminate | intros [E _]; lia].
  - split; [discriminate | intros [E _]; lia].
Qed.

Lemma check_args_small_nonneg (c : CheckedFrom) (args : list Z) (n : Z) (arg_name : string) :
  Z.of_nat (List.length args) = n -> Forall small_nonneg args ->
  check_args c args n arg_name = Ok tt.
Proof.
  intros Hlen Hall. apply check_args_ok_iff. split; [assumption|].
  eapply Forall_impl; [|exact Hall]. intros x. apply is_negative_int_small.
Qed.

Lemma TORCH_CHECK_passed {B} (msg : string) (k : unit -> Result B) :
  rbind (TORCH_CHECK true msg) k = k tt.
Proof. reflexivity. Qed.

Lemma TORCH_CHECK_failed {B} (msg : string) (k : unit -> Result B) :
  rbind (TORCH_CHECK false msg) k = Raise (InvalidArgument msg).
Proof. reflexivity. Qed.

(** Every failure of [check_args] is an InvalidArgument whose message
    ends by naming the call site. *)
Lemma check_args_failure_names_call_site (c : CheckedFrom) (args : list Z) (n : Z)
    (arg_name : string) :
  check_args c args n arg_name = Ok tt \/ names_call_site c (check_args c args n arg_name).
Proof.
  unfold check_args, names_call_site.
  destruct (Z.of_nat (List.length args) <=? n).
  - rewrite TORCH_CHECK_passed.
    destruct (Z.of_nat (List.length args) >=? n).
    + rewrite TORCH_CHECK_passed. cbv zeta.
      destruct (count_if is_negative_int args >? 0).
      * right. eexists. rewrite <- !string_app_assoc. reflexivity.
      * now left.
    + rewrite TORCH_CHECK_failed.
      right. eexists. rewrite <- !string_app_assoc. reflexivity.
  - rewrite TORCH_CHECK_failed.
    right. eexists. rewrite <- !string_app_assoc. reflexivity.
Qed.

(** C3 (evaluated on the code): a list of the expected length whose only
    entry is the negative 64-bit value -4294967296 is accepted by
    [check_args], because the entry is narrowed to the [int] 0 before it
    is compared with zero; conversely the non-negative 2147483648 is
    rejected, being narrowed to a negative [int]. *)
Theorem check_args_narrows_entries_to_int (c : CheckedFrom) (arg_name : string) :
  check_args c [-4294967296] 1 arg_name = Ok tt /\
  ~ 0 <= -4294967296 /\
  check_args c [2147483648] 1 arg_name <> Ok tt /\
  0 <= 2147483648.
Proof.
  split; [reflexivity|]. split; [lia|]. split; [|lia].
  intros H. apply check_args_ok_iff in H. destruct H as [_ H].
  inversion H as [|x l Hx Hl]. discriminate Hx.
Qed.

(** ** [convolution_shape_check] *)

Lemma rbind_ok {A B} (r : Result A) (k : A -> Result B) (b : B) :
  rbind r k = Ok b -> exists a, r = Ok a /\ k a = Ok b.
Proof. destruct r as [a|e]; simpl; [eauto | discriminate]. Qed.

Lemma TORCH_CHECK_ok (cond : bool) (msg : string) :
  TORCH_CHECK cond msg = Ok tt <-> cond = true.
Proof. unfold TORCH_CHECK. destruct cond; split; congruence. Qed.

Lemma size_ok (t : Tensor) (d : nat) (n : Z) :
  size t d = Ok n <-> nth_error (sizes t) d = Some n.
Proof.
  unfold size. destruct (nth_error (sizes t) d); split; congruence.
Qed.

Lemma checkDimRange_ok (c : CheckedFrom) (t : TensorArg) (lo hi : Z) :
  checkDimRange c t lo hi = Ok tt <-> lo <= dim (tensor t) < hi.
Proof. unfold checkDimRange. rewrite TORCH_CHECK_ok. lia. Qed.

Lemma checkSameDim_ok (c : CheckedFrom) (t1 t2 : TensorArg) :
  checkSameDim c t1 t2 = Ok tt <-> dim (tensor t1) = dim (tensor t2).
Proof. unfold checkSameDim. rewrite TORCH_CHECK_ok. lia. Qed.

Lemma checkSize_ok (c : CheckedFrom) (t : TensorArg) (d : nat) (n : Z) :
  checkSize c t d n = Ok tt <-> nth_error (sizes (tensor t)) d = Some n.
Proof.
  unfold checkSize, size.
  destruct (nth_error (sizes (tensor t)) d) as [got|]; simpl.
  - rewrite TORCH_CHECK_ok, Z.eqb_eq. split; congruence.
  - split; discriminate.
Qed.

(** What the code requires, step by step. *)
Lemma convolution_shape_check_ok_iff (c : CheckedFrom) (input weight output : TensorArg)
    (padding stride dilation : list Z) (groups : Z) :
  convolution_shape_check c input weight output padding stride dilation groups = Ok tt <->
  check_args c padding (Int.to_size_t (dim (tensor input) - 2)) "padding" = Ok tt /\
  check_args c stride (Z.of_nat (List.length padding)) "stride" = Ok tt /\
  check_args c dilation (Z.of_nat (List.length padding)) "dilation" = Ok tt /\
  3 <= dim (tensor input) < 6 /\
  (exists w1, nth_error (sizes (tensor weight)) 1 = Some w1 /\
              nth_error (sizes (tensor input)) 1 = Some (w1 * groups)) /\
  dim (tensor input) = dim (tensor weight) /\
  dim (tensor input) = dim (tensor output).
Proof.
  unfold convolution_shape_check. split.
  - intros H.
    apply rbind_ok in H as [[] [H1 H]]. apply rbind_ok in H as [[] [H2 H]].
    apply rbind_ok in H as [[] [H3 H]]. apply rbind_ok in H as [[] [H4 H]].
    apply rbind_ok in H as [w1 [H5 H]]. apply rbind_ok in H as [[] [H6 H]].
    apply rbind_ok in H as [[] [H7 H8]].
    apply checkDimRange_ok in H4. apply size_ok in H5. apply checkSize_ok in H6.
    apply checkSameDim_ok in H7. apply checkSameDim_ok in H8.
    repeat split; try assumption; try lia. exists w1. now split.
  - intros (H1 & H2 & H3 & H4 & (w1 & H5 & H6) & H7 & H8).
    rewrite H1, H2, H3. simpl.
    rewrite (proj2 (checkDimRange_ok c input 3 6) H4). simpl.
    rewrite (proj2 (size_ok (tensor weight) 1 w1) H5). simpl.
    unfold input_channels_dim.
    rewrite (proj2 (checkSize_ok c input 1 (w1 * groups)) H6). simpl.
    rewrite (proj2 (checkSameDim_ok c input weight) H7). simpl.
    now apply checkSameDim_ok.
Qed.

(** C4 (counterexample; the non-negativity guard of [check_args] is part
    of the shape check): a triple that meets the arity, rank, channel and
    equal-rank conditions is still rejected when a padding entry is
    negative. *)
Lemma convolution_shape_check_rejects_negative_padding :
  spec_shape_conditions Reference.input5 Reference.weight3 Reference.output3
    [-1] [1] [1] 1 /\
  convolution_shape_check "cudnn_convolution"
    (mkTensorArg Reference.input5 "input" 1) (mkTensorArg Reference.weight3 "weight" 2)
    (mkTensorArg Reference.output3 "result" 0) [-1] [1] [1] 1
  = Raise (InvalidArgument
      "padding should be greater than zero but got (-1) (while checking arguments for cudnn_convolution)").
Proof.
  split; [|reflexivity].
  unfold spec_shape_conditions. cbn.
  repeat split; try lia. exists 1. now split.
Qed.

(** C4 (amended): [convolution_shape_check] succeeds only when padding,
    stride and dilation all have length [input.rank - 2], the input rank
    is between 3 and 5, the input's channel count is the weight's
    per-group in-channels times groups, and input, weight and output have
    the same rank.  It puts no constraint on the sizes of the output: when
    these conditions hold and every padding, stride and dilation entry is
    non-negative (and fits an [int]), the check passes, and its outcome is
    the same for every output tensor of that rank. *)
Theorem convolution_shape_check_requirements (c : CheckedFrom)
    (input weight output : TensorArg) (padding stride dilation : list Z) (groups : Z) :
  (convolution_shape_check c input weight output padding stride dilation groups = Ok tt ->
   spec_shape_conditions (tensor input) (tensor weight) (tensor output)
     padding stride dilation groups) /\
  (spec_shape_conditions (tensor input) (tensor weight) (tensor output)
     padding stride dilation groups ->
   Forall small_nonneg padding -> Forall small_nonneg stride ->
   Forall small_nonneg dilation ->
   convolution_shape_check c input weight output padding stride dilation groups = Ok tt) /\
  (forall output_t' : Tensor,
     dim output_t' = dim (tensor output) ->
     convolution_shape_check c input weight
       (mkTensorArg output_t' (name output) (pos output)) padding stride dilation groups =
     convolution_shape_check c input weight output padding stride dilation groups).
Proof.
  split; [|split].
  - intros H. apply convolution_shape_check_ok_iff in H.
    destruct H as (H1 & H2 & H3 & H4 & H5 & H6 & H7).
    apply check_args_ok_iff in H1 as [H1 _]. apply check_args_ok_iff in H2 as [H2 _].
    apply check_args_ok_iff in H3 as [H3 _].
    rewrite to_size_t_small in H1 by lia.
    unfold spec_shape_conditions. repeat split; try assumption; lia.
  - intros (H1 & H2 & H3 & H4 & H5 & H6 & H7) Hp Hs Hd.
    apply convolution_shape_check_ok_iff.
    repeat split; try assumption; try lia.
    + apply check_args_small_nonneg; [|assumption].
      rewrite to_size_t_small by lia. assumption.
    + apply check_args_small_nonneg; [lia | assumption].
    + apply check_args_small_nonneg; [lia | assumption].
  - intros output_t' Hdim. unfold convolution_shape_check, checkSameDim, show_arg.
    cbn [tensor name pos]. rewrite Hdim. reflexivity.
Qed.

(** A run of the theorem: an output of the right rank but of an
    arbitrary length (42, where the size formula gives 3) passes. *)
Lemma convolution_shape_check_requirements_witness :
  convolution_shape_check "cudnn_convolution"
    (mkTensorArg Reference.input5 "input" 1) (mkTensorArg Reference.weight3 "weight" 2)
    (mkTensorArg (Reference.cuda_tensor [1; 1; 42] []) "result" 0) [0] [1] [1] 1 = Ok tt.
Proof.
  apply (proj1 (proj2 (convolution_shape_check_requirements "cudnn_convolution"
           (mkTensorArg Reference.input5 "input" 1)
           (mkTensorArg Reference.weight3 "weight" 2)
           (mkTensorArg (Reference.cuda_tensor [1; 1; 42] []) "result" 0)
           [0] [1] [1] 1))).
  - unfold spec_shape_conditions. cbn.
    repeat split; try lia. exists 1. split; reflexivity.
  - repeat constructor; unfold small_nonneg; lia.
  - repeat constructor; unfold small_nonneg; lia.
  - repeat constructor; unfold small_nonneg; lia.
Defined.

(** ** Geometry: forward and transposed sizes *)

(** The example of the specification: input 5, kernel 3, stride 1,
    padding 0, dilation 1 gives an output of size 3. *)
Example conv_output_dim_example : conv_output_dim 5 3 0 1 1 = 3.
Proof. reflexivity. Qed.

Lemma conv_input_of_output_dim (input kernel pad output_padding stride dilation : Z) :
  stride <> 0 ->
  conv_input_dim (conv_output_dim input kernel pad stride dilation)
    kernel pad output_padding stride dilation
  = input - (input + 2 * pad - dilation * (kernel - 1) - 1) mod stride + output_padding.
Proof.
  intros Hs. unfold conv_input_dim, conv_output_dim.
  set (num := input + 2 * pad - dilation * (kernel - 1) - 1).
  pose proof (Z.div_mod num stride Hs) as Hdm.
  replace (num / stride + 1 - 1) with (num / stride) by lia.
  replace (num / stride * stride) with (stride * (num / stride)) by lia.
  subst num. lia.
Qed.

(** Under the size conditions the quotient is taken of a non-negative
    number, so flooring and C++'s truncating division agree. *)
Lemma conv_output_dim_truncating (input kernel pad stride dilation : Z) :
  dilation * (kernel - 1) + 1 <= input + 2 * pad -> 1 <= stride ->
  conv_output_dim input kernel pad stride dilation
  = Z.quot (input + 2 * pad - dilation * (kernel - 1) - 1) stride + 1.
Proof.
  intros Hin Hs. unfold conv_output_dim.
  rewrite Z.quot_div_nonneg by lia. reflexivity.
Qed.

(** C1 (counterexample): with input 6, kernel 3, stride 2, padding 0 and
    dilation 1 the forward size is 2, and the transposed size of 2 with
    output_padding 0 is 5, not 6; the same holds on whole shapes. *)
Lemma transpose_of_forward_size_drops_remainder :
  (1 * (3 - 1) + 1 <= 6 /\ 1 <= 2 /\ 0 <= 0 /\ 1 <= 1) /\
  conv_output_dim 6 3 0 2 1 = 2 /\
  conv_input_dim (conv_output_dim 6 3 0 2 1) 3 0 0 2 1 = 5 /\
  5 <> 6 /\
  conv_input_size (conv_output_size [1; 1; 6] [1; 1; 3] [0] [2] [1])
    [1; 1; 3] [0] [0] [2] [1] 1 = [1; 1; 5].
Proof. repeat split; try lia; try reflexivity. Qed.

(** C1 (amended): for every spatial dimension with
    [in >= dilation·(kernel−1) + 1], [stride >= 1], [pad >= 0] and
    [dilation >= 1], the transposed size formula with output_padding 0
    applied to the forward size of [in] yields [in] minus the remainder
    [(in + 2·pad − dilation·(kernel−1) − 1) mod stride]; it recovers [in]
    exactly when stride divides that quantity (always for stride 1), and
    with output_padding equal to the remainder it recovers [in]. *)
Theorem transpose_of_forward_size (input kernel pad stride dilation : Z) :
  dilation * (kernel - 1) + 1 <= input -> 1 <= stride -> 0 <= pad -> 1 <= dilation ->
  let remainder := (input + 2 * pad - dilation * (kernel - 1) - 1) mod stride in
  conv_input_dim (conv_output_dim input kernel pad stride dilation)
    kernel pad 0 stride dilation = input - remainder /\
  (conv_input_dim (conv_output_dim input kernel pad stride dilation)
     kernel pad 0 stride dilation = input <-> remainder = 0) /\
  (stride = 1 -> remainder = 0) /\
  conv_input_dim (conv_output_dim input kernel pad stride dilation)
    kernel pad remainder stride dilation = input.
Proof.
  intros Hin Hs Hp Hd remainder. subst remainder.
  rewrite !conv_input_of_output_dim by lia.
  repeat split; try lia.
  intros ->. apply Z.mod_1_r.
Qed.

Lemma transpose_of_forward_size_witness :
  conv_input_dim (conv_output_dim 7 3 1 3 2) 3 1 0 3 2 = 7 - 1.
Proof.
  apply (proj1 (transpose_of_forward_size 7 3 1 3 2
                  ltac:(lia) ltac:(lia) ltac:(lia) ltac:(lia))).
Defined.

(** ** The backward orchestrator *)

Section Backward.

Context {backend : RawBackend}.

(** C2: on an input with zero elements, [cudnn_convolution_backward]
    makes no backend call whatever the mask; a requested grad-weight is
    an all-zeros tensor of the weight's shape, a requested grad-input is
    an allocated buffer of the input's shape that was never written, and
    a result that was not requested is left undefined. *)
Theorem backward_on_zero_element_input (ctx : GlobalContext)
    (input grad_output_t weight : Tensor) (padding stride dilation : list Z) (groups : Z)
    (benchmark deterministic allow_tf32 : bool) (output_mask : bool * bool) (log : Log) :
  numel input = 0 ->
  exists grad_input grad_weight,
    cudnn_convolution_backward ctx input grad_output_t weight padding stride dilation
      groups benchmark deterministic allow_tf32 output_mask log
    = (Ok (grad_input, grad_weight), log) /\
    (if fst output_mask
     then defined grad_input = true /\ sizes grad_input = sizes input /\
          storage grad_input = Uninitialized
     else grad_input = undefined_tensor) /\
    (if snd output_mask
     then defined grad_weight = true /\ sizes grad_weight = sizes weight /\
          storage grad_weight = Values (repeat 0 (Z.to_nat (numel weight)))
     else grad_weight = undefined_tensor).
Proof.
  intros Hzero. unfold cudnn_convolution_backward.
  rewrite Hzero. cbn [Z.eqb]. unfold ret.
  do 2 eexists. split; [reflexivity|].
  destruct output_mask as [[] []]; cbn; repeat split; reflexivity.
Qed.

(** C8: with [output_mask = {false, false}], [cudnn_convolution_backward]
    logs no backend call and returns a pair of undefined tensors, for
    every input, grad_output and weight. *)
Theorem backward_with_empty_mask (ctx : GlobalContext)
    (input grad_output_t weight : Tensor) (padding stride dilation : list Z) (groups : Z)
    (benchmark deterministic allow_tf32 : bool) (log : Log) :
  cudnn_convolution_backward ctx input grad_output_t weight padding stride dilation
    groups benchmark deterministic allow_tf32 (false, false) log
  = (Ok (undefined_tensor, undefined_tensor), log) /\
  defined undefined_tensor = false.
Proof.
  split; [|reflexivity].
  unfold cudnn_convolution_backward. destruct (numel input =? 0); reflexivity.
Qed.

End Backward.

Lemma backward_on_zero_element_input_witness :
  exists grad_input grad_weight,
    cudnn_convolution_backward (backend := Reference.backend) Reference.ctx
      Reference.input_empty Reference.output_empty Reference.weight3 [0] [1] [1] 1
      false false false (true, true) []
    = (Ok (grad_input, grad_weight), []) /\
    (defined grad_input = true /\ sizes grad_input = [0; 1; 5] /\
     storage grad_input = Uninitialized) /\
    (defined grad_weight = true /\ sizes grad_weight = [1; 1; 3] /\
     storage grad_weight = Values [0; 0; 0]).
Proof.
  apply (backward_on_zero_element_input (backend := Reference.backend) Reference.ctx
           Reference.input_empty Reference.output_empty Reference.weight3 [0] [1] [1] 1
           false false false (true, true) []).
  reflexivity.
Defined.

(** ** The dispatch monad *)

Lemma bind_ok {A B} (m : M A) (k : A -> M B) (log log' : Log) (b : B) :
  bind m k log = (Ok b, log') ->
  exists a log1, m log = (Ok a, log1) /\ k a log1 = (Ok b, log').
Proof.
  unfold bind. destruct (m log) as [[a|e] log1]; intros H.
  - eauto.
  - discriminate.
Qed.

Lemma lift_ok {A} (r : Result A) (log log' : Log) (a : A) :
  lift r log = (Ok a, log') -> r = Ok a /\ log' = log.
Proof. unfold lift. intros H. inversion H. auto. Qed.

Lemma invoke_ok (call : BackendCall) (r : Result Tensor) (log log' : Log) (t : Tensor) :
  invoke call r log = (Ok t, log') -> r = Ok t /\ log' = (log ++ [call])%list.
Proof. unfold invoke. intros H. inversion H. auto. Qed.

Lemma run_lift_ok {B} (r : Result unit) (k : M B) (log : Log) :
  r = Ok tt -> bind (lift r) (fun _ => k) log = k log.
Proof. intros ->. reflexivity. Qed.

(** ** Degenerate shapes *)

Section ShortCircuit.

Context {backend : RawBackend}.

(** C9: in the forward dispatcher and in both fused dispatchers, when
    the allocated output has zero elements the dispatcher returns it at
    once: the log of backend calls is unchanged and the outcome does not
    depend on [convolution_shape_check].  (In the forward dispatcher the
    output is allocated once the dtype and device checks have passed.) *)
Theorem zero_element_output_returned_immediately (ctx : GlobalContext)
    (input_t weight_t : Tensor) (padding stride dilation : list Z) (groups : Z)
    (log : Log) :
  numel (allocated_output ctx input_t weight_t padding stride dilation) = 0 ->
  (forall (c : CheckedFrom) (input_name weight_name : string) (input_pos weight_pos : Z)
          (benchmark deterministic allow_tf32 : bool),
     let input := mkTensorArg input_t input_name input_pos in
     let weight := mkTensorArg weight_t weight_name weight_pos in
     checkAllSameType c input weight = Ok tt ->
     checkAllSameGPU c input weight = Ok tt ->
     cudnn_convolution_forward ctx c input weight padding stride dilation groups
       benchmark deterministic allow_tf32 log
     = (Ok (allocated_output ctx input_t weight_t padding stride dilation), log)) /\
  (forall bias_t : option Tensor,
     cudnn_convolution_relu ctx input_t weight_t bias_t stride padding dilation groups log
     = (Ok (allocated_output ctx input_t weight_t padding stride dilation), log)) /\
  (forall (z_t : Tensor) (alpha : option Z) (bias_t : option Tensor),
     cudnn_convolution_add_relu ctx input_t weight_t z_t alpha bias_t
       stride padding dilation groups log
     = (Ok (allocated_output ctx input_t weight_t padding stride dilation), log)).
Proof.
  intros Hzero. unfold allocated_output in *. split; [|split].
  - intros c input_name weight_name input_pos weight_pos bm dt tf Hty Hgpu.
    unfold cudnn_convolution_forward.
    rewrite (run_lift_ok _ _ _ Hty), (run_lift_ok _ _ _ Hgpu).
    cbn [tensor]. rewrite Hzero. reflexivity.
  - intros bias_t. unfold cudnn_convolution_relu.
    cbn [sizes scalar_type contiguous]. rewrite Hzero. reflexivity.
  - intros z_t alpha bias_t. unfold cudnn_convolution_add_relu.
    cbn [sizes scalar_type contiguous]. rewrite Hzero. reflexivity.
Qed.

End ShortCircuit.

(** A run on an empty batch with a negative padding entry: the shape
    check would reject the triple, yet the three dispatchers return the
    empty output and log nothing. *)
Lemma zero_element_output_returned_immediately_witness :
  let output_t := allocated_output Reference.ctx Reference.input_empty Reference.weight3
                    [-1] [1] [1] in
  sizes output_t = [0; 1; 1] /\
  convolution_shape_check "cudnn_convolution"
    (mkTensorArg Reference.input_empty "input" 1)
    (mkTensorArg Reference.weight3 "weight" 2)
    (mkTensorArg output_t "result" 0) [-1] [1] [1] 1 <> Ok tt /\
  cudnn_convolution (backend := Reference.backend) Reference.ctx
    Reference.input_empty Reference.weight3 [-1] [1] [1] 1 false false true []
  = (Ok output_t, []) /\
  cudnn_convolution_relu (backend := Reference.backend) Reference.ctx
    Reference.input_empty Reference.weight3 None [1] [-1] [1] 1 []
  = (Ok output_t, []) /\
  cudnn_convolution_add_relu (backend := Reference.backend) Reference.ctx
    Reference.input_empty Reference.weight3 Reference.residual3 None None
    [1] [-1] [1] 1 []
  = (Ok output_t, []).
Proof.
  pose proof (zero_element_output_returned_immediately (backend := Reference.backend)
                Reference.ctx Reference.input_empty Reference.weight3 [-1] [1] [1] 1 []
                eq_refl) as (Hfwd & Hrelu & Hadd).
  cbv zeta. split; [reflexivity|]. split; [discriminate|]. split; [|split].
  - exact (Hfwd "cudnn_convolution" "input" "weight" 1 2 false false true
             eq_refl eq_refl).
  - exact (Hrelu None).
  - exact (Hadd Reference.residual3 None None).
Defined.

(** ** Backward with respect to the weight, and the transposed variants *)

Section Transposed.

Context {backend : RawBackend}.

(** A successful [cudnn_convolution_backward_weight] made exactly one
    backend call, on a freshly allocated result, and returns what the
    primitive wrote. *)
Lemma backward_weight_c_ok (c : CheckedFrom) (weight_size : list Z)
    (grad_output_t input_t : Tensor) (padding stride dilation : list Z) (groups : Z)
    (benchmark deterministic allow_tf32 : bool) (log log' : Log) (r : Tensor) :
  cudnn_convolution_backward_weight_c c weight_size grad_output_t input_t
    padding stride dilation groups benchmark deterministic allow_tf32 log = (Ok r, log') ->
  let layout := cudnn_conv_suggest_memory_format input_t grad_output_t in
  let grad_weight := empty_options weight_size (contiguous grad_output_t layout) layout in
  raw_cudnn_convolution_backward_weight_out grad_weight
    (contiguous grad_output_t layout) (contiguous input_t layout)
    padding stride dilation groups benchmark deterministic allow_tf32 = Ok r /\
  log' = (log ++ [mkBackendCall BackwardWeightOut grad_weight
                    [contiguous grad_output_t layout; contiguous input_t layout] None
                    (padding, stride, dilation, groups)
                    benchmark deterministic allow_tf32])%list.
Proof.
  unfold cudnn_convolution_backward_weight_c. intros H.
  apply bind_ok in H as ([] & log1 & H1 & H). apply lift_ok in H1 as [_ ->].
  apply bind_ok in H as ([] & log2 & H2 & H). apply lift_ok in H2 as [_ ->].
  apply bind_ok in H as ([] & log3 & H3 & H). apply lift_ok in H3 as [_ ->].
  unfold raw_backward_weight in H. apply invoke_ok in H as [Hr ->].
  cbn [tensor] in Hr. split; [exact Hr | reflexivity].
Qed.

(** C7: [cudnn_convolution_transpose_backward_weight] is
    [cudnn_convolution_backward_weight] with the input and grad_output
    tensors interchanged: same result, same error, same backend call.  In
    particular the one primitive call it makes receives [input_t] in the
    grad_output position and [grad_output_t] in the input position. *)
Theorem transpose_backward_weight_swaps_roles
    (weight_size : list Z) (grad_output_t input_t : Tensor)
    (padding stride dilation : list Z) (groups : Z)
    (benchmark deterministic allow_tf32 : bool) :
  cudnn_convolution_transpose_backward_weight weight_size grad_output_t input_t
    padding stride dilation groups benchmark deterministic allow_tf32
  = cudnn_convolution_backward_weight weight_size input_t grad_output_t
      padding stride dilation groups benchmark deterministic allow_tf32 /\
  (forall (log log' : Log) (r : Tensor),
     cudnn_convolution_transpose_backward_weight weight_size grad_output_t input_t
       padding stride dilation groups benchmark deterministic allow_tf32 log
     = (Ok r, log') ->
     let layout := cudnn_conv_suggest_memory_format grad_output_t input_t in
     exists call,
       log' = (log ++ [call])%list /\
       primitive call = BackwardWeightOut /\
       call_operands call = [contiguous input_t layout; contiguous grad_output_t layout]).
Proof.
  split; [reflexivity|].
  intros log log' r H layout.
  unfold cudnn_convolution_transpose_backward_weight in H.
  apply backward_weight_c_ok in H as [_ ->].
  eexists. split; [reflexivity|]. split; reflexivity.
Qed.

End Transposed.

(** A run of C7 on the reference backend. *)
Lemma transpose_backward_weight_swaps_roles_witness :
  exists call,
    snd (cudnn_convolution_transpose_backward_weight (backend := Reference.backend)
           [1; 1; 3] Reference.input5 Reference.output3 [0] [1] [1] 1 false false true [])
    = [call] /\
    primitive call = BackwardWeightOut /\
    call_operands call = [Reference.output3; Reference.input5].
Proof.
  destruct (proj2 (transpose_backward_weight_swaps_roles (backend := Reference.backend)
                     [1; 1; 3] Reference.input5 Reference.output3 [0] [1] [1] 1
                     false false true) [] _ _ eq_refl) as (call & Hlog & Hprim & Hops).
  exists call. cbn [snd]. split; [exact Hlog|]. split; [exact Hprim | exact Hops].
Defined.

(** ** Fused convolution + bias + activation *)

Section Fused.

Context {backend : RawBackend}.

Lemma raw_add_relu_run (output input weight z : Tensor) (alpha : Z) (bias : Tensor)
    (stride padding dilation : list Z) (groups : Z) (bm dt tf : bool) (log : Log) :
  raw_add_relu output input weight z alpha bias stride padding dilation groups bm dt tf log
  = (fused_primitive backend output input weight z alpha bias
       stride padding dilation groups bm dt tf,
     (log ++ [mkBackendCall (fused_tag backend) output [input; weight; z; bias] (Some alpha)
                (padding, stride, dilation, groups) bm dt tf])%list).
Proof.
  unfold raw_add_relu, fused_primitive, fused_tag, invoke.
  destruct AT_CUDNN_CONV_BIAS_RELU_FALLBACK; reflexivity.
Qed.

(** What [cudnn_convolution_add_relu] logs: nothing, or one call of the
    fused primitive with benchmark and deterministic off and allow_tf32
    as the global context has it. *)
Lemma add_relu_log (ctx : GlobalContext) (input_t weight_t z_t : Tensor)
    (alpha : option Z) (bias_t : option Tensor)
    (stride padding dilation : list Z) (groups : Z) (log : Log) :
  let log' := snd (cudnn_convolution_add_relu ctx input_t weight_t z_t alpha bias_t
                     stride padding dilation groups log) in
  log' = log \/
  exists call, log' = (log ++ [call])%list /\
               call_flags call = (false, false, allowTF32CuDNN ctx) /\
               call_alpha call
               = Some (match alpha with Some a => Scalar_to_float a | None => 1 end) /\
               nth_error (call_operands call) 2 = Some z_t.
Proof.
  unfold cudnn_convolution_add_relu. cbv zeta.
  destruct (numel _ =? 0); [now left|].
  unfold bind. destruct (bias_or_zeros bias_t _ log) as [[b|e] log1] eqn:Hb.
  - assert (log1 = log) as ->.
    { unfold bias_or_zeros in Hb. destruct bias_t.
      - unfold ret in Hb. now inversion Hb.
      - unfold bind, lift, ret in Hb. destruct (size _ 1); now inversion Hb. }
    rewrite raw_add_relu_run. right. eexists. split; [reflexivity|].
    repeat split.
  - left. cbn [snd]. unfold bias_or_zeros in Hb. destruct bias_t.
    + unfold ret in Hb. discriminate.
    + unfold bind, lift, ret in Hb. destruct (size _ 1); now inversion Hb.
Qed.

(** The same for [cudnn_convolution_relu], whose scale is the constant 0
    and whose residual operand is the unwritten output itself. *)
Lemma relu_log (ctx : GlobalContext) (input_t weight_t : Tensor) (bias_t : option Tensor)
    (stride padding dilation : list Z) (groups : Z) (log : Log) :
  let log' := snd (cudnn_convolution_relu ctx input_t weight_t bias_t
                     stride padding dilation groups log) in
  log' = log \/
  exists call, log' = (log ++ [call])%list /\
               call_flags call = (false, false, allowTF32CuDNN ctx) /\
               call_alpha call = Some 0 /\
               nth_error (call_operands call) 2
               = Some (allocated_output ctx input_t weight_t padding stride dilation).
Proof.
  unfold cudnn_convolution_relu. cbv zeta.
  destruct (numel _ =? 0); [now left|].
  unfold bind. destruct (bias_or_zeros bias_t _ log) as [[b|e] log1] eqn:Hb.
  - assert (log1 = log) as ->.
    { unfold bias_or_zeros in Hb. destruct bias_t.
      - unfold ret in Hb. now inversion Hb.
      - unfold bind, lift, ret in Hb. destruct (size _ 1); now inversion Hb. }
    rewrite raw_add_relu_run. right. eexists. split; [reflexivity|].
    repeat split.
  - left. cbn [snd]. unfold bias_or_zeros in Hb. destruct bias_t.
    + unfold ret in Hb. discriminate.
    + unfold bind, lift, ret in Hb. destruct (size _ 1); now inversion Hb.
Qed.

(** C6 (amended): each fused dispatcher is a function of its arguments
    and of two values read from the process at call time: the global
    cuDNN allow-tf32 flag and the current device, on which the output is
    allocated.  The benchmark and deterministic flags it hands to the
    backend primitive are the constant [false]; the allow_tf32 flag is
    the global one.  Two contexts that agree on allow-tf32 and on the
    device give identical runs, whatever their benchmark and deterministic
    modes. *)
Theorem fused_dispatchers_read_allow_tf32_only (ctx : GlobalContext)
    (input_t weight_t z_t : Tensor) (alpha : option Z) (bias_t : option Tensor)
    (stride padding dilation : list Z) (groups : Z) (log : Log) :
  (forall ctx' : GlobalContext,
     allowTF32CuDNN ctx' = allowTF32CuDNN ctx ->
     current_device ctx' = current_device ctx ->
     cudnn_convolution_relu ctx' input_t weight_t bias_t stride padding dilation groups log
     = cudnn_convolution_relu ctx input_t weight_t bias_t stride padding dilation groups log
     /\
     cudnn_convolution_add_relu ctx' input_t weight_t z_t alpha bias_t
       stride padding dilation groups log
     = cudnn_convolution_add_relu ctx input_t weight_t z_t alpha bias_t
         stride padding dilation groups log) /\
  (forall call : BackendCall,
     In call (snd (cudnn_convolution_relu ctx input_t weight_t bias_t
                     stride padding dilation groups log)) ->
     In call log \/ call_flags call = (false, false, allowTF32CuDNN ctx)) /\
  (forall call : BackendCall,
     In call (snd (cudnn_convolution_add_relu ctx input_t weight_t z_t alpha bias_t
                     stride padding dilation groups log)) ->
     In call log \/ call_flags call = (false, false, allowTF32CuDNN ctx)).
Proof.
  split; [|split].
  - intros ctx' Htf Hdev.
    unfold cudnn_convolution_relu, cudnn_convolution_add_relu, empty_cuda.
    rewrite Htf, Hdev. split; reflexivity.
  - intros call Hin.
    destruct (relu_log ctx input_t weight_t bias_t stride padding dilation groups log)
      as [E | (call' & E & Hflags & _)]; rewrite E in Hin.
    + now left.
    + apply in_app_or in Hin as [Hin | [<- | []]]; [now left | now right].
  - intros call Hin.
    destruct (add_relu_log ctx input_t weight_t z_t alpha bias_t
                stride padding dilation groups log)
      as [E | (call' & E & Hflags & _)]; rewrite E in Hin.
    + now left.
    + apply in_app_or in Hin as [Hin | [<- | []]]; [now left | now right].
Qed.

End Fused.

Lemma spec_fused_primitive
    (conv : Tensor -> Tensor -> list Z -> list Z -> list Z -> Z -> nat -> Z)
    (unwritten : nat -> Z) (base : RawBackend) :
  fused_primitive (with_spec_fused conv unwritten base) = spec_add_relu conv unwritten.
Proof.
  unfold fused_primitive, with_spec_fused. cbn.
  destruct (@AT_CUDNN_CONV_BIAS_RELU_FALLBACK base); reflexivity.
Qed.

Lemma read_zeros (unwritten : nat -> Z) (shape : list Z) (like : Tensor) (i : nat) :
  read unwritten (zeros shape like) i = 0.
Proof. unfold read, zeros, zero_values. cbn [storage]. apply nth_repeat. Qed.

(** C5: with the fused primitive of the specification,
    [relu(conv(input, weight) + bias + alpha·z)], [cudnn_convolution_relu]
    called with no bias returns exactly what [cudnn_convolution_add_relu]
    returns with [alpha = 0], no bias and any residual [z_t], on every
    input.  When the allocated output is not empty and has a channel
    dimension, each makes one call of the fused primitive with scale 0
    and a zero bias of shape [{out_channels}] (the residual operand being
    the unwritten output for the first, [z_t] for the second), and both
    return the output written with [relu(conv(input, weight))]. *)
Theorem relu_is_add_relu_with_zero_alpha
    (conv : Tensor -> Tensor -> list Z -> list Z -> list Z -> Z -> nat -> Z)
    (unwritten : nat -> Z) (base : RawBackend) (ctx : GlobalContext)
    (input_t weight_t z_t : Tensor) (stride padding dilation : list Z) (groups : Z)
    (log : Log) :
  let backend := with_spec_fused conv unwritten base in
  let mf := cudnn_conv_suggest_memory_format input_t weight_t in
  let output := allocated_output ctx input_t weight_t padding stride dilation in
  let input := contiguous input_t mf in
  let weight := contiguous weight_t mf in
  fst (cudnn_convolution_relu (backend := backend) ctx input_t weight_t None
         stride padding dilation groups log)
  = fst (cudnn_convolution_add_relu (backend := backend) ctx input_t weight_t z_t
           (Some 0) None stride padding dilation groups log) /\
  (numel output <> 0 ->
   forall out_channels, nth_error (sizes output) 1 = Some out_channels ->
     let bias := zeros [out_channels] output in
     let value :=
       mkTensor true (sizes output) (scalar_type input_t) (kCUDA (current_device ctx)) mf
         (Values (map (fun i => relu (conv input weight padding stride dilation groups i))
                      (seq 0 (Z.to_nat (numel output))))) in
     let call z :=
       mkBackendCall (fused_tag backend) output [input; weight; z; bias] (Some 0)
         (padding, stride, dilation, groups) false false (allowTF32CuDNN ctx) in
     cudnn_convolution_relu (backend := backend) ctx input_t weight_t None
       stride padding dilation groups log
     = (Ok value, (log ++ [call output])%list) /\
     cudnn_convolution_add_relu (backend := backend) ctx input_t weight_t z_t
       (Some 0) None stride padding dilation groups log
     = (Ok value, (log ++ [call z_t])%list)).
Proof.
  intros backend mf output input weight.
  assert (forall out z bias,
            (forall i, read unwritten bias i = 0) ->
            fused_primitive backend out input weight z 0 bias
              stride padding dilation groups false false (allowTF32CuDNN ctx)
            = Ok (mkTensor (defined out) (sizes out) (scalar_type out) (device out)
                    (memory_format out)
                    (Values (map (fun i => relu (conv input weight padding stride dilation
                                                   groups i))
                                 (seq 0 (Z.to_nat (numel out))))))) as Hvalue.
  { intros out z bias Hbias. subst backend. rewrite spec_fused_primitive.
    unfold spec_add_relu. do 3 f_equal. apply map_ext. intros i.
    rewrite Hbias, Z.mul_0_l, !Z.add_0_r. reflexivity. }
  split.
  - unfold cudnn_convolution_relu, cudnn_convolution_add_relu. cbv zeta.
    destruct (numel _ =? 0); [reflexivity|].
    unfold bind. destruct (bias_or_zeros None _ log) as [[b|e] log1]; [|reflexivity].
    rewrite !raw_add_relu_run. cbn [fst]. change (Scalar_to_float 0) with 0.
    fold backend. subst backend. rewrite !spec_fused_primitive.
    unfold spec_add_relu. reflexivity.
  - intros Hne out_channels Hch bias value call.
    assert (bias_or_zeros None output log = (Ok bias, log)) as Hb.
    { unfold bias_or_zeros, bind, lift, size. now rewrite Hch. }
    apply Z.eqb_neq in Hne.
    unfold cudnn_convolution_relu, cudnn_convolution_add_relu. cbv zeta.
    cbn [sizes scalar_type contiguous].
    fold (allocated_output ctx input_t weight_t padding stride dilation). fold output.
    rewrite Hne. unfold bind. rewrite Hb, !raw_add_relu_run.
    change (Scalar_to_float 0) with 0.
    fold backend. rewrite !Hvalue by (intros i; apply read_zeros).
    split; reflexivity.
Qed.

(** A run of C5: a cross-correlation of [1; 2; 3; 4; 5] with [1; 2; -1]
    as convolution, a residual that is not zero, and an unwritten output
    holding 12345 everywhere. *)
Lemma relu_is_add_relu_with_zero_alpha_witness :
  cudnn_convolution_relu
    (backend := with_spec_fused correlate_1d (fun _ => 12345) Reference.backend)
    Reference.ctx Reference.input5 Reference.weight3 None [1] [0] [1] 1 []
  = (Ok (mkTensor true [1; 1; 3] kFloat (kCUDA 0) Contiguous (Values [2; 4; 6])),
     [mkBackendCall AddReluOut
        (mkTensor true [1; 1; 3] kFloat (kCUDA 0) Contiguous Uninitialized)
        [Reference.input5; Reference.weight3;
         mkTensor true [1; 1; 3] kFloat (kCUDA 0) Contiguous Uninitialized;
         mkTensor true [1] kFloat (kCUDA 0) Contiguous (Values [0])]
        (Some 0) ([0], [1], [1], 1) false false true]) /\
  cudnn_convolution_add_relu
    (backend := with_spec_fused correlate_1d (fun _ => 12345) Reference.backend)
    Reference.ctx Reference.input5 Reference.weight3 Reference.residual3 (Some 0) None
    [1] [0] [1] 1 []
  = (Ok (mkTensor true [1; 1; 3] kFloat (kCUDA 0) Contiguous (Values [2; 4; 6])),
     [mkBackendCall AddReluOut
        (mkTensor true [1; 1; 3] kFloat (kCUDA 0) Contiguous Uninitialized)
        [Reference.input5; Reference.weight3; Reference.residual3;
         mkTensor true [1] kFloat (kCUDA 0) Contiguous (Values [0])]
        (Some 0) ([0], [1], [1], 1) false false true]).
Proof.
  apply (proj2 (relu_is_add_relu_with_zero_alpha correlate_1d (fun _ => 12345)
                  Reference.backend Reference.ctx
                  Reference.input5 Reference.weight3 Reference.residual3
                  [1] [0] [1] 1 [])
           ltac:(discriminate) 1 eq_refl).
Defined.

(** With the default scale (1) the residual does show in the result, so
    the equality above is specific to [alpha = 0]. *)
Example add_relu_with_default_alpha_adds_residual :
  fst (cudnn_convolution_add_relu (backend := Reference.backend) Reference.ctx
         Reference.input5 Reference.weight3 Reference.residual3 None None
         [1] [0] [1] 1 [])
  = Ok (Reference.cuda_tensor [1; 1; 3] [37; 22; 39]) /\
  fst (cudnn_convolution_relu (backend := Reference.backend) Reference.ctx
         Reference.input5 Reference.weight3 None [1] [0] [1] 1 [])
  = Ok (Reference.cuda_tensor [1; 1; 3] [30; 30; 30]).
Proof. split; reflexivity. Qed.

(** C6 (counterexample): two contexts that differ in the global benchmark
    and deterministic modes, and otherwise identical calls of each fused
    dispatcher: the backend primitive is called once, with the flags
    (benchmark, deterministic, allow_tf32) = (false, false, true) in both. *)
Lemma fused_flags_ignore_benchmark_and_deterministic_mode :
  benchmarkCuDNN Reference.ctx <> benchmarkCuDNN Reference.ctx_benchmark_deterministic /\
  deterministicCuDNN Reference.ctx
  <> deterministicCuDNN Reference.ctx_benchmark_deterministic /\
  map call_flags
    (snd (cudnn_convolution_relu (backend := Reference.backend) Reference.ctx
            Reference.input5 Reference.weight3 None [1] [0] [1] 1 []))
  = [(false, false, true)] /\
  map call_flags
    (snd (cudnn_convolution_relu (backend := Reference.backend)
            Reference.ctx_benchmark_deterministic
            Reference.input5 Reference.weight3 None [1] [0] [1] 1 []))
  = [(false, false, true)] /\
  map call_flags
    (snd (cudnn_convolution_add_relu (backend := Reference.backend) Reference.ctx
            Reference.input5 Reference.weight3 Reference.residual3 None None
            [1] [0] [1] 1 []))
  = [(false, false, true)] /\
  map call_flags
    (snd (cudnn_convolution_add_relu (backend := Reference.backend)
            Reference.ctx_benchmark_deterministic
            Reference.input5 Reference.weight3 Reference.residual3 None None
            [1] [0] [1] 1 []))
  = [(false, false, true)].
Proof. repeat split; try discriminate; reflexivity. Qed.

(** A run of C6: switching benchmark and deterministic mode on changes
    nothing in either fused dispatcher. *)
Lemma fused_dispatchers_read_allow_tf32_only_witness :
  cudnn_convolution_relu (backend := Reference.backend)
    Reference.ctx_benchmark_deterministic
    Reference.input5 Reference.weight3 None [1] [0] [1] 1 []
  = cudnn_convolution_relu (backend := Reference.backend) Reference.ctx
      Reference.input5 Reference.weight3 None [1] [0] [1] 1 [] /\
  cudnn_convolution_add_relu (backend := Reference.backend)
    Reference.ctx_benchmark_deterministic
    Reference.input5 Reference.weight3 Reference.residual3 None None [1] [0] [1] 1 []
  = cudnn_convolution_add_relu (backend := Reference.backend) Reference.ctx
      Reference.input5 Reference.weight3 Reference.residual3 None None [1] [0] [1] 1 [].
Proof.
  apply (proj1 (fused_dispatchers_read_allow_tf32_only (backend := Reference.backend)
                  Reference.ctx Reference.input5 Reference.weight3 Reference.residual3
                  None None [1] [0] [1] 1 [])
           Reference.ctx_benchmark_deterministic eq_refl eq_refl).
Defined.

(** ** [check_args] on entries that fit an [int] *)

(** X1: when every entry is representable as an [int], [check_args]
    succeeds exactly when the list has the expected length and every
    entry is non-negative; and whenever it fails, for any entries, it
    fails with an InvalidArgument whose message names the call site. *)
Theorem check_args_on_int_entries (c : CheckedFrom) (args : list Z) (expected_size : Z)
    (arg_name : string) :
  (Forall Int.in_int args ->
   (check_args c args expected_size arg_name = Ok tt <->
    Z.of_nat (List.length args) = expected_size /\ Forall (fun x => 0 <= x) args)) /\
  (check_args c args expected_size arg_name = Ok tt \/
   names_call_site c (check_args c args expected_size arg_name)).
Proof.
  split; [|apply check_args_failure_names_call_site].
  intros Hint. rewrite check_args_ok_iff.
  assert (Forall (fun x => is_negative_int x = false) args
          <-> Forall (fun x => 0 <= x) args) as ->; [|reflexivity].
  rewrite !Forall_forall. rewrite Forall_forall in Hint.
  split; intros H x Hx; specialize (H x Hx); specialize (Hint x Hx);
    unfold is_negative_int in *; rewrite to_int_small in * by assumption;
    [now apply Z.ltb_ge in H | now apply Z.ltb_ge].
Qed.

(** Runs of X1: an accepted list, a rejected list of [int]s, and a
    rejected entry that does not fit an [int]. *)
Lemma check_args_on_int_entries_witness :
  check_args "cudnn_convolution" [1; 0; 2] 3 "padding" = Ok tt /\
  names_call_site "cudnn_convolution" (check_args "cudnn_convolution" [1; -1] 2 "stride") /\
  names_call_site "cudnn_convolution"
    (check_args "cudnn_convolution" [2147483648] 1 "dilation").
Proof.
  split; [|split].
  - apply (proj1 (check_args_on_int_entries "cudnn_convolution" [1; 0; 2] 3 "padding")
             ltac:(repeat constructor; unfold Int.in_int; lia)).
    split; [reflexivity | repeat constructor; lia].
  - destruct (proj2 (check_args_on_int_entries "cudnn_convolution" [1; -1] 2 "stride"))
      as [H | H]; [discriminate H | exact H].
  - destruct (proj2 (check_args_on_int_entries "cudnn_convolution" [2147483648] 1
                       "dilation"))
      as [H | H]; [discriminate H | exact H].
Defined.


(* ------------------------------------------------------------------ *)
(** * Further properties *)

(** ** Arrays filled by a loop *)

Lemma array_set_at_end (l r : list Z) (x v : Z) :
  array_set (List.length l) v (l ++ x :: r) = (l ++ v :: r)%list.
Proof. induction l as [|y l IH]; simpl; [reflexivity | now rewrite IH]. Qed.

(** Writing [f 0], ..., [f (n-1)] in turn into a zeroed array of
    capacity [cap] leaves these values followed by zeros. *)
Lemma fill_zeroed_array (f : nat -> Z) (n cap : nat) :
  (n <= cap)%nat ->
  fold_left (fun a i => array_set i (f i) a) (seq 0 n) (repeat 0 cap)
  = (map f (seq 0 n) ++ repeat 0 (cap - n))%list.
Proof.
  induction n as [|n IH]; intros Hn.
  - simpl. now rewrite Nat.sub_0_r.
  - rewrite seq_S, fold_left_app, IH by lia. simpl.
    replace (cap - n)%nat with (S (cap - S n)) by lia. simpl.
    replace n with (List.length (map f (seq 0 n))) at 1
      by now rewrite length_map, length_seq.
    rewrite array_set_at_end, map_app, <- app_assoc. reflexivity.
Qed.

Lemma map_nth_seq (l : list Z) (g : Z -> Z) (n : nat) :
  n = List.length l ->
  map (fun i => g (nth i l 0)) (seq 0 n) = map g l.
Proof.
  intros ->. induction l as [|x l IH]; [reflexivity|].
  simpl. rewrite <- seq_shift, map_map. now rewrite IH.
Qed.

Lemma map_to_int_small (l : list Z) : Forall Int.in_int l -> map Int.to_int l = l.
Proof.
  induction 1 as [|x l Hx _ IH]; simpl; [reflexivity|].
  now rewrite to_int_small, IH.
Qed.

Lemma set_sizes_fold (input weight : Tensor) (l : list nat) (p : Params.ConvolutionParams) :
  fold_left (set_sizes input weight) l p
  = Params.mk (Params.device_id p) (Params.dataType p)
      (fold_left (fun a i => array_set i (Int.to_int (nth i (sizes input) 0)) a) l
         (Params.input_size p))
      (Params.input_dim p) (Params.memory_format p)
      (fold_left (fun a i => array_set i (Int.to_int (nth i (sizes weight) 0)) a) l
         (Params.weight_size p))
      (Params.padding p) (Params.stride p) (Params.dilation p)
      (Params.groups p) (Params.deterministic p) (Params.allow_tf32 p).
Proof.
  revert p. induction l as [|i l IH]; intros p; simpl.
  - now destruct p.
  - rewrite IH. reflexivity.
Qed.

Lemma set_geometry_fold (padding stride dilation : list Z) (l : list nat)
    (p : Params.ConvolutionParams) :
  fold_left (set_geometry padding stride dilation) l p
  = Params.mk (Params.device_id p) (Params.dataType p)
      (Params.input_size p) (Params.input_dim p) (Params.memory_format p)
      (Params.weight_size p)
      (fold_left (fun a i => array_set i (Int.to_int (nth i padding 0)) a) l
         (Params.padding p))
      (fold_left (fun a i => array_set i (Int.to_int (nth i stride 0)) a) l
         (Params.stride p))
      (fold_left (fun a i => array_set i (Int.to_int (nth i dilation 0)) a) l
         (Params.dilation p))
      (Params.groups p) (Params.deterministic p) (Params.allow_tf32 p).
Proof.
  revert p. induction l as [|i l IH]; intros p; simpl.
  - now destruct p.
  - rewrite IH. reflexivity.
Qed.

Lemma dim_nat (t : Tensor) : Z.to_nat (dim t) = List.length (sizes t).
Proof. unfold dim. apply Nat2Z.id. Qed.

(** ** [setConvolutionParams] *)

Section ParamsProperties.

Variable getCudnnDataType : Tensor -> Result cudnnDataType_t.
Variable cudnnTypeToString : cudnnDataType_t -> string.
Variable show_ints : list Z -> string.

(** The struct [setConvolutionParams] leaves behind, in closed form. *)
Lemma setConvolutionParams_value (ctx : GlobalContext) (prior : Params.ConvolutionParams)
    (input weight : Tensor) (padding stride dilation : list Z) (groups : Z)
    (deterministic allow_tf32 : bool) (dataType : cudnnDataType_t) :
  getCudnnDataType input = Ok dataType ->
  dim input <= Z.of_nat (2 + max_dim) ->
  dim weight = dim input ->
  (List.length padding <= max_dim)%nat ->
  List.length stride = List.length padding ->
  List.length dilation = List.length padding ->
  setConvolutionParams getCudnnDataType ctx prior input weight padding stride dilation
    groups deterministic allow_tf32
  = Ok (Params.mk (current_device ctx) dataType
          (map Int.to_int (sizes input)
             ++ repeat 0 (2 + max_dim - List.length (sizes input)))%list
          (dim input) (suggest_memory_format input)
          (map Int.to_int (sizes weight)
             ++ repeat 0 (2 + max_dim - List.length (sizes input)))%list
          (map Int.to_int padding ++ repeat 0 (max_dim - List.length padding))%list
          (map Int.to_int stride ++ repeat 0 (max_dim - List.length padding))%list
          (map Int.to_int dilation ++ repeat 0 (max_dim - List.length padding))%list
          groups deterministic allow_tf32).
Proof.
  intros Hdt Hrank Hw Hp Hs Hd.
  assert (List.length (sizes weight) = List.length (sizes input)) as Hwlen
    by (unfold dim in Hw; lia).
  assert (to_uint8 (dim input) = dim input) as Hu8.
  { unfold to_uint8. apply Z.mod_small. unfold dim in *. simpl in Hrank. lia. }
  unfold setConvolutionParams. rewrite Hdt. cbn [rbind].
  cbn [Params.input_dim Params.device_id Params.dataType Params.input_size
       Params.memory_format Params.weight_size Params.padding Params.stride
       Params.dilation Params.groups Params.deterministic Params.allow_tf32 memset_zero].
  rewrite Hu8, dim_nat, set_sizes_fold, set_geometry_fold.
  cbn [Params.input_dim Params.device_id Params.dataType Params.input_size
       Params.memory_format Params.weight_size Params.padding Params.stride
       Params.dilation Params.groups Params.deterministic Params.allow_tf32].
  rewrite !fill_zeroed_array by (unfold dim in Hrank; lia).
  rewrite (map_nth_seq (sizes input) Int.to_int _ eq_refl).
  rewrite (map_nth_seq (sizes weight) Int.to_int _ (eq_sym Hwlen)).
  rewrite (map_nth_seq padding Int.to_int _ eq_refl).
  rewrite (map_nth_seq stride Int.to_int _ (eq_sym Hs)).
  rewrite (map_nth_seq dilation Int.to_int _ (eq_sym Hd)).
  reflexivity.
Qed.

End ParamsProperties.

(** ** Text that occurs in a diagnostic *)

Lemma occurs_in_later (a s t : string) : occurs_in s t -> occurs_in s (a ++ t).
Proof.
  intros (before & after & ->). exists (a ++ before), after.
  now rewrite string_app_assoc.
Qed.

Lemma occurs_in_front (s t after : string) : t = s ++ after -> occurs_in s t.
Proof. intros ->. exists "", after. reflexivity. Qed.

Ltac find_occurrence :=
  repeat first
    [ solve [ eapply occurs_in_front; rewrite ?string_app_assoc; reflexivity ]
    | apply occurs_in_later ].

Lemma firstn_exact {A} (l r : list A) (n : nat) :
  n = List.length l -> firstn n (l ++ r) = l.
Proof.
  intros ->. rewrite firstn_app, Nat.sub_diag, firstn_all. simpl. apply app_nil_r.
Qed.

Section ReproProperties.

Variable getCudnnDataType : Tensor -> Result cudnnDataType_t.
Variable cudnnTypeToString : cudnnDataType_t -> string.
Variable show_ints : list Z -> string.

(** X3: for an input of rank at most 5, a weight of the same rank and at
    most three padding, stride and dilation entries (as many of each),
    [setConvolutionParams] fails only if [getCudnnDataType] does; what
    it leaves in the struct does not depend on what the struct held; the
    sizes and the geometry are stored narrowed to [int] in the leading
    slots of their arrays and every other slot is zero; values that fit
    an [int] are stored as they are. *)
Theorem setConvolutionParams_fills_zeroed_struct (ctx : GlobalContext)
    (prior : Params.ConvolutionParams) (input weight : Tensor)
    (padding stride dilation : list Z) (groups : Z) (deterministic allow_tf32 : bool) :
  dim input <= Z.of_nat (2 + max_dim) ->
  dim weight = dim input ->
  (List.length padding <= max_dim)%nat ->
  List.length stride = List.length padding ->
  List.length dilation = List.length padding ->
  let set_params prior :=
    setConvolutionParams getCudnnDataType ctx prior input weight padding stride dilation
      groups deterministic allow_tf32 in
  let stored (l : list Z) (capacity : nat) :=
    (map Int.to_int l ++ repeat 0 (capacity - List.length l))%list in
  (forall e, getCudnnDataType input = Raise e -> set_params prior = Raise e) /\
  (forall dataType, getCudnnDataType input = Ok dataType ->
     set_params prior
     = Ok (Params.mk (current_device ctx) dataType
             (stored (sizes input) (2 + max_dim)%nat) (dim input) (suggest_memory_format input)
             (stored (sizes weight) (2 + max_dim)%nat)
             (stored padding max_dim) (stored stride max_dim) (stored dilation max_dim)
             groups deterministic allow_tf32)) /\
  (forall prior', set_params prior' = set_params prior) /\
  (forall l capacity, Forall Int.in_int l ->
     stored l capacity = (l ++ repeat 0 (capacity - List.length l))%list).
Proof.
  intros Hrank Hw Hp Hs Hd set_params stored. subst set_params stored. cbv beta.
  split; [|split; [|split]].
  - intros e He. unfold setConvolutionParams. now rewrite He.
  - intros dataType Hdt.
    rewrite (setConvolutionParams_value getCudnnDataType ctx prior input weight
               padding stride dilation groups deterministic allow_tf32 dataType)
      by assumption.
    unfold dim in Hw. apply Nat2Z.inj in Hw. rewrite Hw, Hs, Hd. reflexivity.
  - intros prior'. reflexivity.
  - intros l capacity Hl. now rewrite map_to_int_small.
Qed.

(** X4: the repro script written for the struct that
    [setConvolutionParams] filled names the caller's own geometry.  For
    an input of rank 2 to 5, a weight of the same rank, [rank - 2]
    padding, stride and dilation entries, sizes and entries fitting an
    [int] and [groups] any [int64_t]: the script has the line creating
    [data] with the sizes of the input, the line building the convolution
    with its dimensionality, the input channel count
    [weight.size(1) * groups] narrowed to [int] (line 123 stores the
    product in an [int], so it wraps around when it does not fit), the
    output channel count [weight.size(0)], kernel size, padding, stride,
    dilation and groups, and the deterministic and allow_tf32 lines as
    given to [setConvolutionParams], whatever the global context is when
    the script is written. *)
Theorem repro_from_args_names_the_call (ctx ctx' : GlobalContext)
    (prior : Params.ConvolutionParams) (input weight : Tensor)
    (padding stride dilation : list Z) (groups : Z) (deterministic allow_tf32 : bool)
    (dataType : cudnnDataType_t) :
  getCudnnDataType input = Ok dataType ->
  2 <= dim input <= Z.of_nat (2 + max_dim) ->
  dim weight = dim input ->
  Z.of_nat (List.length padding) = dim input - 2 ->
  List.length stride = List.length padding ->
  List.length dilation = List.length padding ->
  Forall Int.in_int (sizes input) -> Forall Int.in_int (sizes weight) ->
  Forall Int.in_int padding -> Forall Int.in_int stride -> Forall Int.in_int dilation ->
  exists params,
    setConvolutionParams getCudnnDataType ctx prior input weight padding stride dilation
      groups deterministic allow_tf32 = Ok params /\
    occurs_in
      ("torch.backends.cudnn.deterministic = " ++ pybool deterministic ++ nl
       ++ "torch.backends.cudnn.allow_tf32 = " ++ pybool allow_tf32 ++ nl
       ++ "data = torch.randn(" ++ show_ints (sizes input) ++ ", dtype=")
      (repro_from_args show_ints ctx' params) /\
    occurs_in
      ("net = torch.nn.Conv" ++ Int.show (dim input - 2) ++ "d("
       ++ Int.show (Int.to_int (nth 1 (sizes weight) 0 * groups)) ++ ", "
       ++ Int.show (nth 0 (sizes weight) 0) ++ ", "
       ++ "kernel_size=" ++ show_ints (skipn 2 (sizes weight)) ++ ", "
       ++ "padding=" ++ show_ints padding ++ ", "
       ++ "stride=" ++ show_ints stride ++ ", "
       ++ "dilation=" ++ show_ints dilation ++ ", "
       ++ "groups=" ++ Int.show groups ++ ")" ++ nl)
      (repro_from_args show_ints ctx' params).
Proof.
  intros Hdt Hrank Hw Hp Hs Hd Fi Fw Fp Fs Fd.
  assert (List.length (sizes weight) = List.length (sizes input)) as Hwlen
    by (unfold dim in Hw; lia).
  assert (List.length padding + 2 = List.length (sizes input))%nat as Hplen
    by (unfold dim in Hp; lia).
  assert (List.length padding <= max_dim)%nat as Hpmax
    by (unfold max_dim, dim in *; lia).
  eexists. split.
  { apply setConvolutionParams_value with (dataType := dataType); try assumption. lia. }
  rewrite !map_to_int_small by assumption.
  unfold repro_from_args.
  cbn [Params.input_dim Params.device_id Params.dataType Params.input_size
       Params.memory_format Params.weight_size Params.padding Params.stride
       Params.dilation Params.groups Params.deterministic Params.allow_tf32].
  cbv zeta.
  assert (dim input <= 5) as Hfive by (unfold max_dim in Hrank; simpl in Hrank; lia).
  rewrite to_size_t_small by lia.
  rewrite dim_nat, (firstn_exact (sizes input)) by reflexivity.
  replace (Z.to_nat (dim input - 2)) with (List.length padding) by lia.
  rewrite (firstn_exact padding) by reflexivity.
  rewrite (firstn_exact stride) by (symmetry; assumption).
  rewrite (firstn_exact dilation) by (symmetry; assumption).
  rewrite skipn_app.
  replace (2 - List.length (sizes weight))%nat with 0%nat by lia.
  rewrite skipn_O, (firstn_exact (skipn 2 (sizes weight)))
    by (rewrite length_skipn; lia).
  rewrite !app_nth1 by lia.
  split; find_occurrence.
Qed.

(** X5: printed with [operator<<], the struct that
    [setConvolutionParams] filled shows the three slots of each of
    padding, stride and dilation: the caller's entries followed by a zero
    for every spatial dimension the convolution does not have. *)
Theorem print_ConvolutionParams_shows_all_slots (ctx : GlobalContext)
    (prior : Params.ConvolutionParams) (input weight : Tensor)
    (padding stride dilation : list Z) (groups : Z) (deterministic allow_tf32 : bool)
    (dataType : cudnnDataType_t) :
  getCudnnDataType input = Ok dataType ->
  dim input <= Z.of_nat (2 + max_dim) ->
  dim weight = dim input ->
  (List.length padding <= max_dim)%nat ->
  List.length stride = List.length padding ->
  List.length dilation = List.length padding ->
  Forall Int.in_int padding -> Forall Int.in_int stride -> Forall Int.in_int dilation ->
  let zeros := repeat 0 (max_dim - List.length padding) in
  exists params,
    setConvolutionParams getCudnnDataType ctx prior input weight padding stride dilation
      groups deterministic allow_tf32 = Ok params /\
    print_ConvolutionParams cudnnTypeToString show_ints params
    = "ConvolutionParams " ++ nl
      ++ "    data_type = " ++ cudnnTypeToString dataType ++ nl
      ++ "    padding = " ++ show_ints (padding ++ zeros)%list ++ nl
      ++ "    stride = " ++ show_ints (stride ++ zeros)%list ++ nl
      ++ "    dilation = " ++ show_ints (dilation ++ zeros)%list ++ nl
      ++ "    groups = " ++ Int.show groups ++ nl
      ++ "    deterministic = " ++ (if deterministic then "true" else "false") ++ nl
      ++ "    allow_tf32 = " ++ (if allow_tf32 then "true" else "false") ++ nl.
Proof.
  intros Hdt Hrank Hw Hp Hs Hd Fp Fs Fd zeros. subst zeros.
  eexists. split.
  { apply setConvolutionParams_value with (dataType := dataType); try assumption. }
  rewrite (map_to_int_small padding), (map_to_int_small stride),
    (map_to_int_small dilation) by assumption.
  reflexivity.
Qed.

End ReproProperties.

(** ** Runs of the dispatchers, case by case *)

Lemma log_not_extended (log : Log) (call : BackendCall) : log <> (log ++ [call])%list.
Proof.
  intros H. rewrite <- (app_nil_r log) in H at 1.
  apply app_inv_head in H. discriminate.
Qed.

Lemma log_extension_unique (log : Log) (c1 c2 : BackendCall) :
  (log ++ [c1])%list = (log ++ [c2])%list -> c1 = c2.
Proof. intros H. apply app_inv_head in H. now inversion H. Qed.

Section Runs.

Context {backend : RawBackend}.

Lemma forward_run (ctx : GlobalContext) (c : CheckedFrom) (input weight : TensorArg)
    (padding stride dilation : list Z) (groups : Z) (bm dt tf : bool) (log : Log) :
  let mf := cudnn_conv_suggest_memory_format (tensor input) (tensor weight) in
  let output := allocated_output ctx (tensor input) (tensor weight) padding stride dilation in
  cudnn_convolution_forward ctx c input weight padding stride dilation groups bm dt tf log
  = match checkAllSameType c input weight with
    | Raise e => (Raise e, log)
    | Ok _ =>
      match checkAllSameGPU c input weight with
      | Raise e => (Raise e, log)
      | Ok _ =>
        if numel output =? 0 then (Ok output, log)
        else
          match convolution_shape_check c input weight (mkTensorArg output "result" 0)
                  padding stride dilation groups with
          | Raise e => (Raise e, log)
          | Ok _ =>
            (raw_cudnn_convolution_forward_out output
               (contiguous (tensor input) mf) (contiguous (tensor weight) mf)
               padding stride dilation groups bm dt tf,
             (log ++ [mkBackendCall ForwardOut output
                        [contiguous (tensor input) mf; contiguous (tensor weight) mf] None
                        (padding, stride, dilation, groups) bm dt tf])%list)
          end
      end
    end.
Proof.
  cbv zeta. unfold cudnn_convolution_forward, allocated_output, bind, lift.
  destruct (checkAllSameType c input weight) as [[]|e]; [|reflexivity].
  destruct (checkAllSameGPU c input weight) as [[]|e]; [|reflexivity].
  destruct (numel _ =? 0); [reflexivity|].
  destruct (convolution_shape_check _ _ _ _ _ _ _ _) as [[]|e]; reflexivity.
Qed.

Lemma backward_input_run (ctx : GlobalContext) (c : CheckedFrom) (input_size : list Z)
    (grad_output weight : TensorArg) (padding stride dilation : list Z) (groups : Z)
    (bm dt tf : bool) (log : Log) :
  let mf := cudnn_conv_suggest_memory_format (tensor grad_output) (tensor weight) in
  let grad_input := empty_cuda ctx input_size (scalar_type (tensor grad_output)) mf in
  cudnn_convolution_backward_input_c ctx c input_size grad_output weight
    padding stride dilation groups bm dt tf log
  = match checkAllSameType c grad_output weight with
    | Raise e => (Raise e, log)
    | Ok _ =>
      match checkAllSameGPU c grad_output weight with
      | Raise e => (Raise e, log)
      | Ok _ =>
        match convolution_shape_check c (mkTensorArg grad_input "result" 0) weight
                grad_output padding stride dilation groups with
        | Raise e => (Raise e, log)
        | Ok _ =>
          (raw_cudnn_convolution_backward_input_out grad_input
             (contiguous (tensor grad_output) mf) (contiguous (tensor weight) mf)
             padding stride dilation groups bm dt tf,
           (log ++ [mkBackendCall BackwardInputOut grad_input
                      [contiguous (tensor grad_output) mf; contiguous (tensor weight) mf]
                      None (padding, stride, dilation, groups) bm dt tf])%list)
        end
      end
    end.
Proof.
  cbv zeta. unfold cudnn_convolution_backward_input_c, bind, lift.
  destruct (checkAllSameType c grad_output weight) as [[]|e]; [|reflexivity].
  destruct (checkAllSameGPU c grad_output weight) as [[]|e]; [|reflexivity].
  destruct (convolution_shape_check _ _ _ _ _ _ _ _) as [[]|e]; reflexivity.
Qed.

Lemma backward_weight_run (c : CheckedFrom) (weight_size : list Z)
    (grad_output_t input_t : Tensor) (padding stride dilation : list Z) (groups : Z)
    (bm dt tf : bool) (log : Log) :
  let layout := cudnn_conv_suggest_memory_format input_t grad_output_t in
  let grad_output := mkTensorArg (contiguous grad_output_t layout) "grad_output" 1 in
  let input := mkTensorArg (contiguous input_t layout) "input" 2 in
  let grad_weight := empty_options weight_size (tensor grad_output) layout in
  cudnn_convolution_backward_weight_c c weight_size grad_output_t input_t
    padding stride dilation groups bm dt tf log
  = match checkAllSameType c grad_output input with
    | Raise e => (Raise e, log)
    | Ok _ =>
      match checkAllSameGPU c grad_output input with
      | Raise e => (Raise e, log)
      | Ok _ =>
        match convolution_shape_check c input (mkTensorArg grad_weight "result" 0)
                grad_output padding stride dilation groups with
        | Raise e => (Raise e, log)
        | Ok _ =>
          (raw_cudnn_convolution_backward_weight_out grad_weight
             (tensor grad_output) (tensor input)
             padding stride dilation groups bm dt tf,
           (log ++ [mkBackendCall BackwardWeightOut grad_weight
                      [tensor grad_output; tensor input]
                      None (padding, stride, dilation, groups) bm dt tf])%list)
        end
      end
    end.
Proof.
  cbv zeta. unfold cudnn_convolution_backward_weight_c, bind, lift.
  destruct (checkAllSameType c _ _) as [[]|e]; [|reflexivity].
  destruct (checkAllSameGPU c _ _) as [[]|e]; [|reflexivity].
  destruct (convolution_shape_check _ _ _ _ _ _ _ _) as [[]|e]; reflexivity.
Qed.

(** X6: whenever [cudnn_convolution_forward] reaches the backend, the
    dtype, device and shape checks have all passed on a non-empty
    output, the one call it logs is the forward primitive on the freshly
    allocated output and on both operands put in the resolved layout,
    and the dispatcher returns the outcome of the primitive as it is,
    result or error. *)
Theorem forward_reaches_backend_only_when_validated (ctx : GlobalContext) (c : CheckedFrom)
    (input weight : TensorArg) (padding stride dilation : list Z) (groups : Z)
    (benchmark deterministic allow_tf32 : bool) (log : Log) (call : BackendCall) :
  snd (cudnn_convolution_forward ctx c input weight padding stride dilation groups
         benchmark deterministic allow_tf32 log) = (log ++ [call])%list ->
  let mf := cudnn_conv_suggest_memory_format (tensor input) (tensor weight) in
  let output := allocated_output ctx (tensor input) (tensor weight) padding stride dilation in
  checkAllSameType c input weight = Ok tt /\
  checkAllSameGPU c input weight = Ok tt /\
  numel output <> 0 /\
  convolution_shape_check c input weight (mkTensorArg output "result" 0)
    padding stride dilation groups = Ok tt /\
  call = mkBackendCall ForwardOut output
           [contiguous (tensor input) mf; contiguous (tensor weight) mf] None
           (padding, stride, dilation, groups) benchmark deterministic allow_tf32 /\
  fst (cudnn_convolution_forward ctx c input weight padding stride dilation groups
         benchmark deterministic allow_tf32 log)
  = raw_cudnn_convolution_forward_out output
      (contiguous (tensor input) mf) (contiguous (tensor weight) mf)
      padding stride dilation groups benchmark deterministic allow_tf32.
Proof.
  rewrite forward_run. cbv zeta.
  destruct (checkAllSameType c input weight) as [[]|e];
    [|intros H; now apply log_not_extended in H].
  destruct (checkAllSameGPU c input weight) as [[]|e];
    [|intros H; now apply log_not_extended in H].
  destruct (numel _ =? 0) eqn:Hn; [intros H; now apply log_not_extended in H|].
  destruct (convolution_shape_check _ _ _ _ _ _ _ _) as [[]|e];
    [|intros H; now apply log_not_extended in H].
  cbn [fst snd]. intros H. apply log_extension_unique in H.
  apply Z.eqb_neq in Hn. repeat split; auto.
Qed.

(** X7: the same for [cudnn_convolution_backward_input]: the backend is
    reached only after the dtype, device and shape checks have passed on
    the triple (result, weight, grad_output), with a result allocated at
    the caller's [input_size] in the layout resolved from grad_output and
    weight; the outcome of the primitive is returned as it is. *)
Theorem backward_input_reaches_backend_only_when_validated (ctx : GlobalContext)
    (c : CheckedFrom) (input_size : list Z) (grad_output weight : TensorArg)
    (padding stride dilation : list Z) (groups : Z)
    (benchmark deterministic allow_tf32 : bool) (log : Log) (call : BackendCall) :
  snd (cudnn_convolution_backward_input_c ctx c input_size grad_output weight
         padding stride dilation groups benchmark deterministic allow_tf32 log)
  = (log ++ [call])%list ->
  let mf := cudnn_conv_suggest_memory_format (tensor grad_output) (tensor weight) in
  let grad_input := empty_cuda ctx input_size (scalar_type (tensor grad_output)) mf in
  checkAllSameType c grad_output weight = Ok tt /\
  checkAllSameGPU c grad_output weight = Ok tt /\
  convolution_shape_check c (mkTensorArg grad_input "result" 0) weight grad_output
    padding stride dilation groups = Ok tt /\
  call = mkBackendCall BackwardInputOut grad_input
           [contiguous (tensor grad_output) mf; contiguous (tensor weight) mf] None
           (padding, stride, dilation, groups) benchmark deterministic allow_tf32 /\
  fst (cudnn_convolution_backward_input_c ctx c input_size grad_output weight
         padding stride dilation groups benchmark deterministic allow_tf32 log)
  = raw_cudnn_convolution_backward_input_out grad_input
      (contiguous (tensor grad_output) mf) (contiguous (tensor weight) mf)
      padding stride dilation groups benchmark deterministic allow_tf32.
Proof.
  rewrite backward_input_run. cbv zeta.
  destruct (checkAllSameType c grad_output weight) as [[]|e];
    [|intros H; now apply log_not_extended in H].
  destruct (checkAllSameGPU c grad_output weight) as [[]|e];
    [|intros H; now apply log_not_extended in H].
  destruct (convolution_shape_check _ _ _ _ _ _ _ _) as [[]|e];
    [|intros H; now apply log_not_extended in H].
  cbn [fst snd]. intros H. apply log_extension_unique in H. repeat split; auto.
Qed.

(** X8: and for [cudnn_convolution_backward_weight]: the backend is
    reached only after both operands were put in the layout resolved
    from (input, grad_output) and the dtype, device and shape checks
    passed on the triple (input, result, grad_output), with a result
    allocated at the caller's [weight_size] with the dtype and device of
    grad_output; the outcome of the primitive is returned as it is. *)
Theorem backward_weight_reaches_backend_only_when_validated (c : CheckedFrom)
    (weight_size : list Z) (grad_output_t input_t : Tensor)
    (padding stride dilation : list Z) (groups : Z)
    (benchmark deterministic allow_tf32 : bool) (log : Log) (call : BackendCall) :
  snd (cudnn_convolution_backward_weight_c c weight_size grad_output_t input_t
         padding stride dilation groups benchmark deterministic allow_tf32 log)
  = (log ++ [call])%list ->
  let layout := cudnn_conv_suggest_memory_format input_t grad_output_t in
  let grad_output := mkTensorArg (contiguous grad_output_t layout) "grad_output" 1 in
  let input := mkTensorArg (contiguous input_t layout) "input" 2 in
  let grad_weight :=
    mkTensor true weight_size (scalar_type grad_output_t) (device grad_output_t) layout
      Uninitialized in
  checkAllSameType c grad_output input = Ok tt /\
  checkAllSameGPU c grad_output input = Ok tt /\
  convolution_shape_check c input (mkTensorArg grad_weight "result" 0) grad_output
    padding stride dilation groups = Ok tt /\
  call = mkBackendCall BackwardWeightOut grad_weight
           [tensor grad_output; tensor input] None
           (padding, stride, dilation, groups) benchmark deterministic allow_tf32 /\
  fst (cudnn_convolution_backward_weight_c c weight_size grad_output_t input_t
         padding stride dilation groups benchmark deterministic allow_tf32 log)
  = raw_cudnn_convolution_backward_weight_out grad_weight
      (tensor grad_output) (tensor input)
      padding stride dilation groups benchmark deterministic allow_tf32.
Proof.
  rewrite backward_weight_run. cbv zeta.
  destruct (checkAllSameType c _ _) as [[]|e];
    [|intros H; now apply log_not_extended in H].
  destruct (checkAllSameGPU c _ _) as [[]|e];
    [|intros H; now apply log_not_extended in H].
  destruct (convolution_shape_check _ _ _ _ _ _ _ _) as [[]|e];
    [|intros H; now apply log_not_extended in H].
  cbn [fst snd]. intros H. apply log_extension_unique in H. repeat split; auto.
Qed.

End Runs.

(** ** Geometry of the results *)

Lemma reference_writes_in_place : writes_in_place Reference.backend.
Proof.
  unfold writes_in_place, fused_primitive, same_geometry. cbn.
  unfold Reference.plain, Reference.add_relu, Reference.write.
  repeat split; intros; match goal with H : Ok _ = Ok _ |- _ => inversion H end;
    reflexivity.
Qed.

Section ResultGeometry.

Context {backend : RawBackend}.
Hypothesis in_place : writes_in_place backend.

Lemma forward_ok_geometry (ctx : GlobalContext) (c : CheckedFrom) (input weight : TensorArg)
    (padding stride dilation : list Z) (groups : Z) (bm dt tf : bool)
    (log log' : Log) (r : Tensor) :
  cudnn_convolution_forward ctx c input weight padding stride dilation groups bm dt tf log
  = (Ok r, log') ->
  same_geometry r (allocated_output ctx (tensor input) (tensor weight)
                     padding stride dilation).
Proof.
  rewrite forward_run. cbv zeta.
  destruct (checkAllSameType c input weight) as [[]|e]; [|discriminate].
  destruct (checkAllSameGPU c input weight) as [[]|e]; [|discriminate].
  destruct (numel _ =? 0).
  - intros H. inversion H. unfold same_geometry. auto.
  - destruct (convolution_shape_check _ _ _ _ _ _ _ _) as [[]|e]; [|discriminate].
    intros H. inversion H as [[Hr Hlog]].
    destruct in_place as (Hf & _). eapply Hf. exact Hr.
Qed.

Lemma backward_input_ok_geometry (ctx : GlobalContext) (c : CheckedFrom)
    (input_size : list Z) (grad_output weight : TensorArg)
    (padding stride dilation : list Z) (groups : Z) (bm dt tf : bool)
    (log log' : Log) (r : Tensor) :
  cudnn_convolution_backward_input_c ctx c input_size grad_output weight
    padding stride dilation groups bm dt tf log = (Ok r, log') ->
  same_geometry r
    (empty_cuda ctx input_size (scalar_type (tensor grad_output))
       (cudnn_conv_suggest_memory_format (tensor grad_output) (tensor weight))).
Proof.
  rewrite backward_input_run. cbv zeta.
  destruct (checkAllSameType c grad_output weight) as [[]|e]; [|discriminate].
  destruct (checkAllSameGPU c grad_output weight) as [[]|e]; [|discriminate].
  destruct (convolution_shape_check _ _ _ _ _ _ _ _) as [[]|e]; [|discriminate].
  intros H. inversion H as [[Hr Hlog]].
  destruct in_place as (_ & Hb & _). eapply Hb. exact Hr.
Qed.

Lemma backward_weight_ok_geometry (c : CheckedFrom) (weight_size : list Z)
    (grad_output_t input_t : Tensor) (padding stride dilation : list Z) (groups : Z)
    (bm dt tf : bool) (log log' : Log) (r : Tensor) :
  cudnn_convolution_backward_weight_c c weight_size grad_output_t input_t
    padding stride dilation groups bm dt tf log = (Ok r, log') ->
  same_geometry r
    (mkTensor true weight_size (scalar_type grad_output_t) (device grad_output_t)
       (cudnn_conv_suggest_memory_format input_t grad_output_t) Uninitialized).
Proof.
  rewrite backward_weight_run. cbv zeta.
  destruct (checkAllSameType c _ _) as [[]|e]; [|discriminate].
  destruct (checkAllSameGPU c _ _) as [[]|e]; [|discriminate].
  destruct (convolution_shape_check _ _ _ _ _ _ _ _) as [[]|e]; [|discriminate].
  intros H. inversion H as [[Hr Hlog]].
  destruct in_place as (_ & _ & Hw & _). eapply Hw. exact Hr.
Qed.

(** X9: with primitives that write into the output they are handed, a
    successful call of each entry point returns a defined tensor of the
    geometry it allocated: [cudnn_convolution] the forward size of
    (input, weight), with the input's dtype, on the current CUDA device;
    [cudnn_convolution_backward_input] the caller's [input_size], with
    grad_output's dtype; [cudnn_convolution_backward_weight] the caller's
    [weight_size], with grad_output's dtype and device;
    [cudnn_convolution_transpose] the transposed size of (input, weight)
    with the given output_padding. *)
Theorem results_have_the_allocated_geometry (ctx : GlobalContext) (a b : Tensor)
    (shape padding output_padding stride dilation : list Z) (groups : Z)
    (benchmark deterministic allow_tf32 : bool) (log log' : Log) (r : Tensor) :
  (cudnn_convolution ctx a b padding stride dilation groups
     benchmark deterministic allow_tf32 log = (Ok r, log') ->
   defined r = true /\
   sizes r = conv_output_size (sizes a) (sizes b) padding stride dilation /\
   scalar_type r = scalar_type a /\ device r = kCUDA (current_device ctx)) /\
  (cudnn_convolution_backward_input ctx shape a b padding stride dilation groups
     benchmark deterministic allow_tf32 log = (Ok r, log') ->
   defined r = true /\ sizes r = shape /\
   scalar_type r = scalar_type a /\ device r = kCUDA (current_device ctx)) /\
  (cudnn_convolution_backward_weight shape a b padding stride dilation groups
     benchmark deterministic allow_tf32 log = (Ok r, log') ->
   defined r = true /\ sizes r = shape /\
   scalar_type r = scalar_type a /\ device r = device a) /\
  (cudnn_convolution_transpose ctx a b padding output_padding stride dilation groups
     benchmark deterministic allow_tf32 log = (Ok r, log') ->
   defined r = true /\
   sizes r = conv_input_size (sizes a) (sizes b) padding output_padding stride dilation
               groups /\
   scalar_type r = scalar_type a /\ device r = kCUDA (current_device ctx)).
Proof.
  split; [|split; [|split]]; intros H.
  - apply forward_ok_geometry in H. destruct H as (H1 & H2 & H3 & H4 & _).
    now rewrite H1, H2, H3, H4.
  - apply backward_input_ok_geometry in H. destruct H as (H1 & H2 & H3 & H4 & _).
    now rewrite H1, H2, H3, H4.
  - apply backward_weight_ok_geometry in H. destruct H as (H1 & H2 & H3 & H4 & _).
    now rewrite H1, H2, H3, H4.
  - apply backward_input_ok_geometry in H. destruct H as (H1 & H2 & H3 & H4 & _).
    now rewrite H1, H2, H3, H4.
Qed.

(** X10: with such primitives, whenever [cudnn_convolution_backward]
    succeeds, on any input, empty or not, a requested grad-input is a
    defined tensor with the sizes of the input and a requested
    grad-weight a defined tensor with the sizes of the weight; a result
    that was not requested is the undefined tensor. *)
Theorem backward_gradients_have_the_shapes_of_their_operands (ctx : GlobalContext)
    (input grad_output_t weight : Tensor) (padding stride dilation : list Z) (groups : Z)
    (benchmark deterministic allow_tf32 : bool) (output_mask : bool * bool)
    (log log' : Log) (grad_input grad_weight : Tensor) :
  cudnn_convolution_backward ctx input grad_output_t weight padding stride dilation
    groups benchmark deterministic allow_tf32 output_mask log
  = (Ok (grad_input, grad_weight), log') ->
  (if fst output_mask
   then defined grad_input = true /\ sizes grad_input = sizes input
   else grad_input = undefined_tensor) /\
  (if snd output_mask
   then defined grad_weight = true /\ sizes grad_weight = sizes weight
   else grad_weight = undefined_tensor).
Proof.
  unfold cudnn_convolution_backward.
  destruct (numel input =? 0).
  - unfold ret. intros H. inversion H.
    destruct output_mask as [[] []]; cbn; repeat split; reflexivity.
  - intros H.
    apply bind_ok in H as (gi & log1 & Hgi & H).
    apply bind_ok in H as (gw & log2 & Hgw & H).
    unfold ret in H. inversion H; subst. split.
    + destruct (fst output_mask).
      * apply backward_input_ok_geometry in Hgi.
        destruct Hgi as (H1 & H2 & _). now rewrite H1, H2.
      * unfold ret in Hgi. now inversion Hgi.
    + destruct (snd output_mask).
      * apply backward_weight_ok_geometry in Hgw.
        destruct Hgw as (H1 & H2 & _). now rewrite H1, H2.
      * unfold ret in Hgw. now inversion Hgw.
Qed.

End ResultGeometry.

(** ** The orchestrators: which primitives run, and in which order *)

Section Orchestration.

Context {backend : RawBackend}.

Lemma forward_one_call (ctx : GlobalContext) (c : CheckedFrom) (input weight : TensorArg)
    (padding stride dilation : list Z) (groups : Z) (bm dt tf : bool) (log : Log) :
  one_call_at_most ForwardOut log
    (cudnn_convolution_forward ctx c input weight padding stride dilation groups
       bm dt tf log).
Proof.
  unfold one_call_at_most. rewrite forward_run. cbv zeta.
  destruct (checkAllSameType c input weight) as [[]|e];
    [|exists []; rewrite app_nil_r; auto].
  destruct (checkAllSameGPU c input weight) as [[]|e];
    [|exists []; rewrite app_nil_r; auto].
  destruct (numel _ =? 0); [exists []; rewrite app_nil_r; auto|].
  destruct (convolution_shape_check _ _ _ _ _ _ _ _) as [[]|e];
    [|exists []; rewrite app_nil_r; auto].
  eexists [_]. cbn [snd]. split; [reflexivity|]. split; [right; eauto | discriminate].
Qed.

Lemma backward_input_one_call (ctx : GlobalContext) (c : CheckedFrom) (input_size : list Z)
    (grad_output weight : TensorArg) (padding stride dilation : list Z) (groups : Z)
    (bm dt tf : bool) (log : Log) :
  one_call_at_most BackwardInputOut log
    (cudnn_convolution_backward_input_c ctx c input_size grad_output weight
       padding stride dilation groups bm dt tf log).
Proof.
  unfold one_call_at_most. rewrite backward_input_run. cbv zeta.
  destruct (checkAllSameType c grad_output weight) as [[]|e];
    [|exists []; rewrite app_nil_r; cbn; repeat split; auto; discriminate].
  destruct (checkAllSameGPU c grad_output weight) as [[]|e];
    [|exists []; rewrite app_nil_r; cbn; repeat split; auto; discriminate].
  destruct (convolution_shape_check _ _ _ _ _ _ _ _) as [[]|e];
    [|exists []; rewrite app_nil_r; cbn; repeat split; auto; discriminate].
  eexists [_]. cbn [snd]. split; [reflexivity|]. split; [right; eauto | discriminate].
Qed.

Lemma backward_weight_one_call (c : CheckedFrom) (weight_size : list Z)
    (grad_output_t input_t : Tensor) (padding stride dilation : list Z) (groups : Z)
    (bm dt tf : bool) (log : Log) :
  one_call_at_most BackwardWeightOut log
    (cudnn_convolution_backward_weight_c c weight_size grad_output_t input_t
       padding stride dilation groups bm dt tf log).
Proof.
  unfold one_call_at_most. rewrite backward_weight_run. cbv zeta.
  destruct (checkAllSameType c _ _) as [[]|e];
    [|exists []; rewrite app_nil_r; cbn; repeat split; auto; discriminate].
  destruct (checkAllSameGPU c _ _) as [[]|e];
    [|exists []; rewrite app_nil_r; cbn; repeat split; auto; discriminate].
  destruct (convolution_shape_check _ _ _ _ _ _ _ _) as [[]|e];
    [|exists []; rewrite app_nil_r; cbn; repeat split; auto; discriminate].
  eexists [_]. cbn [snd]. split; [reflexivity|]. split; [right; eauto | discriminate].
Qed.

(** The calls of a masked pair: those of the first step if requested,
    then, unless the first step failed, those of the second if requested. *)
Lemma masked_pair_calls (output_mask : bool * bool) (first second : M Tensor)
    (p1 p2 : Primitive) (log : Log) :
  p2 <> ForwardOut ->
  (forall l, one_call_at_most p1 l (first l)) ->
  (forall l, one_call_at_most p2 l (second l)) ->
  exists calls1 calls2,
    snd (masked_pair output_mask first second log) = (log ++ calls1 ++ calls2)%list /\
    (calls1 = [] \/
     fst output_mask = true /\ exists call, calls1 = [call] /\ primitive call = p1) /\
    (calls2 = [] \/
     snd output_mask = true /\ exists call, calls2 = [call] /\ primitive call = p2) /\
    (is_ok (fst (masked_pair output_mask first second log)) = true ->
     (fst output_mask = true -> p1 <> ForwardOut -> calls1 <> []) /\
     (snd output_mask = true -> calls2 <> [])) /\
    (fst output_mask = true ->
     forall e, fst (first log) = Raise e ->
       masked_pair output_mask first second log = (Raise e, snd (first log))).
Proof.
  intros Hp2 Hfirst Hsecond. unfold masked_pair, bind.
  destruct output_mask as [m0 m1]. cbn [fst snd].
  assert (exists calls1 r1 l1,
            (if m0 then first else ret undefined_tensor) log = (r1, l1) /\
            l1 = (log ++ calls1)%list /\
            (calls1 = [] \/ m0 = true /\ exists call, calls1 = [call] /\ primitive call = p1) /\
            (is_ok r1 = true -> m0 = true -> p1 <> ForwardOut -> calls1 <> []) /\
            (m0 = true -> (r1, l1) = first log)) as (calls1 & r1 & l1 & E1 & -> & S1 & O1 & F1).
  { destruct m0.
    - destruct (Hfirst log) as (calls & Hs & Hc & Hok).
      destruct (first log) as [r1 l1] eqn:R1. cbn [fst snd] in *.
      exists calls, r1, l1. repeat split; auto.
      destruct Hc as [-> | Hc]; [now left | right; auto].
    - exists [], (Ok undefined_tensor), log. unfold ret. rewrite app_nil_r.
      repeat split; auto; discriminate. }
  rewrite E1. destruct r1 as [gi|e].
  - assert (exists calls2 r2 l2,
              (if m1 then second else ret undefined_tensor) (log ++ calls1)%list = (r2, l2) /\
              l2 = ((log ++ calls1) ++ calls2)%list /\
              (calls2 = [] \/ m1 = true /\ exists call, calls2 = [call] /\ primitive call = p2) /\
              (is_ok r2 = true -> m1 = true -> calls2 <> []))
      as (calls2 & r2 & l2 & E2 & -> & S2 & O2).
    { destruct m1.
      - destruct (Hsecond (log ++ calls1)%list) as (calls & Hs & Hc & Hok).
        destruct (second (log ++ calls1)%list) as [r2 l2] eqn:R2. cbn [fst snd] in *.
        exists calls, r2, l2. repeat split; auto.
        destruct Hc as [-> | Hc]; [now left | right; auto].
      - exists [], (Ok undefined_tensor), (log ++ calls1)%list. unfold ret.
        rewrite app_nil_r. repeat split; auto; discriminate. }
    rewrite E2. exists calls1, calls2.
    split; [destruct r2; cbn [snd]; now rewrite app_assoc|].
    split; [exact S1|]. split; [exact S2|]. split.
    + intros Hok. split; [now apply O1|].
      destruct r2; [now apply O2 | discriminate].
    + intros Hm e He. specialize (F1 Hm). rewrite <- F1 in He. discriminate.
  - exists calls1, []. rewrite app_nil_r. cbn [snd fst].
    split; [reflexivity|]. split; [exact S1|]. split; [now left|]. split.
    + discriminate.
    + intros Hm e' He. specialize (F1 Hm). rewrite <- F1 in He |- *.
      cbn [fst snd] in *. now inversion He.
Qed.

(** X11: on an input that is not empty, [cudnn_convolution_backward]
    calls the backward-input primitive only if grad-input is requested
    and the backward-weight primitive only if grad-weight is requested,
    each at most once and in this order; when it succeeds it has called
    exactly the requested ones; and when the grad-input computation
    fails, its error is returned and the grad-weight computation is not
    started. *)
Theorem backward_calls_follow_the_mask (ctx : GlobalContext)
    (input grad_output_t weight : Tensor) (padding stride dilation : list Z) (groups : Z)
    (benchmark deterministic allow_tf32 : bool) (output_mask : bool * bool) (log : Log) :
  numel input <> 0 ->
  let grad_output := contiguous grad_output_t (suggest_memory_format input) in
  let outcome :=
    cudnn_convolution_backward ctx input grad_output_t weight padding stride dilation
      groups benchmark deterministic allow_tf32 output_mask log in
  let grad_input_step :=
    cudnn_convolution_backward_input ctx (sizes input) grad_output weight
      padding stride dilation groups benchmark deterministic allow_tf32 log in
  exists calls1 calls2,
    snd outcome = (log ++ calls1 ++ calls2)%list /\
    (calls1 = [] \/ fst output_mask = true /\ primitives calls1 = [BackwardInputOut]) /\
    (calls2 = [] \/ snd output_mask = true /\ primitives calls2 = [BackwardWeightOut]) /\
    (is_ok (fst outcome) = true ->
     primitives (calls1 ++ calls2)%list
     = ((if fst output_mask then [BackwardInputOut] else [])
        ++ (if snd output_mask then [BackwardWeightOut] else []))%list) /\
    (fst output_mask = true ->
     forall e, fst grad_input_step = Raise e -> outcome = (Raise e, snd grad_input_step)).
Proof.
  intros Hne grad_output outcome grad_input_step. subst outcome grad_input_step.
  assert (cudnn_convolution_backward ctx input grad_output_t weight padding stride dilation
            groups benchmark deterministic allow_tf32 output_mask
          = masked_pair output_mask
              (cudnn_convolution_backward_input ctx (sizes input) grad_output weight
                 padding stride dilation groups benchmark deterministic allow_tf32)
              (cudnn_convolution_backward_weight (sizes weight) grad_output input
                 padding stride dilation groups benchmark deterministic allow_tf32)) as ->.
  { unfold cudnn_convolution_backward. apply Z.eqb_neq in Hne. now rewrite Hne. }
  destruct (masked_pair_calls output_mask
              (cudnn_convolution_backward_input ctx (sizes input) grad_output weight
                 padding stride dilation groups benchmark deterministic allow_tf32)
              (cudnn_convolution_backward_weight (sizes weight) grad_output input
                 padding stride dilation groups benchmark deterministic allow_tf32)
              BackwardInputOut BackwardWeightOut log)
    as (calls1 & calls2 & Hlog & H1 & H2 & Hok & Hfail).
  - discriminate.
  - intros l. apply backward_input_one_call.
  - intros l. apply backward_weight_one_call.
  - exists calls1, calls2. split; [exact Hlog|].
    assert (calls1 = [] \/ fst output_mask = true /\ primitives calls1 = [BackwardInputOut])
      as H1'.
    { destruct H1 as [-> | (Hm & call & -> & Hp)]; [now left|].
      right. split; [assumption|]. unfold primitives. cbn. now rewrite Hp. }
    assert (calls2 = [] \/ snd output_mask = true /\ primitives calls2 = [BackwardWeightOut])
      as H2'.
    { destruct H2 as [-> | (Hm & call & -> & Hp)]; [now left|].
      right. split; [assumption|]. unfold primitives. cbn. now rewrite Hp. }
    split; [exact H1'|]. split; [exact H2'|]. split; [|exact Hfail].
    intros Hsucc. destruct (Hok Hsucc) as [Hc1 Hc2].
    unfold primitives in *. rewrite map_app.
    destruct (fst output_mask) eqn:M0, (snd output_mask) eqn:M1.
    + destruct H1' as [-> | [_ ->]]; [now exfalso; apply Hc1|].
      destruct H2' as [-> | [_ ->]]; [now exfalso; apply Hc2|]. reflexivity.
    + destruct H1' as [-> | [_ ->]]; [now exfalso; apply Hc1|].
      destruct H2' as [-> | [? _]]; [reflexivity | discriminate].
    + destruct H1' as [-> | [? _]]; [|discriminate].
      destruct H2' as [-> | [_ ->]]; [now exfalso; apply Hc2|]. reflexivity.
    + destruct H1' as [-> | [? _]]; [|discriminate].
      destruct H2' as [-> | [? _]]; [reflexivity | discriminate].
Qed.

End Orchestration.

(** ** The transposed entry points *)

Lemma agree_refl {A} (r : Result A) : agree_up_to_message r r.
Proof. destruct r as [a|[m|m|m]]; simpl; auto. Qed.

Lemma TORCH_CHECK_agree (cond : bool) (m1 m2 : string) :
  agree_up_to_message (TORCH_CHECK cond m1) (TORCH_CHECK cond m2).
Proof. destruct cond; simpl; auto. Qed.

Lemma agree_check {B} (r1 r2 : Result unit) (k1 k2 : Result B) :
  agree_up_to_message r1 r2 -> agree_up_to_message k1 k2 ->
  agree_up_to_message (rbind r1 (fun _ => k1)) (rbind r2 (fun _ => k2)).
Proof.
  destruct r1 as [[]|e1], r2 as [[]|e2]; simpl; auto; try contradiction.
  destruct e1; contradiction.
Qed.

Lemma agree_rbind_same {A B} (r : Result A) (k1 k2 : A -> Result B) :
  (forall a, agree_up_to_message (k1 a) (k2 a)) ->
  agree_up_to_message (rbind r k1) (rbind r k2).
Proof. destruct r as [a|e]; simpl; [auto | intros _; apply (@agree_refl B (Raise e))]. Qed.

Lemma check_args_agree (c1 c2 : CheckedFrom) (args : list Z) (n : Z) (arg_name : string) :
  agree_up_to_message (check_args c1 args n arg_name) (check_args c2 args n arg_name).
Proof.
  unfold check_args.
  apply agree_check; [apply TORCH_CHECK_agree|].
  apply agree_check; [apply TORCH_CHECK_agree|].
  cbv zeta. destruct (count_if is_negative_int args >? 0); simpl; auto.
Qed.

(** The shape check passes or fails alike under any call-site name and
    any argument names. *)
Lemma convolution_shape_check_agree (c1 c2 : CheckedFrom) (i1 i2 w1 w2 o1 o2 : TensorArg)
    (padding stride dilation : list Z) (groups : Z) :
  tensor i1 = tensor i2 -> tensor w1 = tensor w2 -> tensor o1 = tensor o2 ->
  agree_up_to_message
    (convolution_shape_check c1 i1 w1 o1 padding stride dilation groups)
    (convolution_shape_check c2 i2 w2 o2 padding stride dilation groups).
Proof.
  intros Hi Hw Ho. unfold convolution_shape_check.
  rewrite Hi. apply agree_check; [apply check_args_agree|].
  apply agree_check; [apply check_args_agree|].
  apply agree_check; [apply check_args_agree|].
  apply agree_check.
  { unfold checkDimRange. rewrite Hi. apply TORCH_CHECK_agree. }
  rewrite Hw. apply agree_rbind_same. intros w.
  apply agree_check.
  { unfold checkSize. rewrite Hi. apply agree_rbind_same. intros got.
    apply TORCH_CHECK_agree. }
  apply agree_check.
  { unfold checkSameDim. rewrite Hi, Hw. apply TORCH_CHECK_agree. }
  unfold checkSameDim. rewrite Hi, Ho. apply TORCH_CHECK_agree.
Qed.

Lemma same_run_check {B} (r1 r2 : Result unit) (k1 k2 : M B) :
  agree_up_to_message r1 r2 -> same_run k1 k2 ->
  same_run (bind (lift r1) (fun _ => k1)) (bind (lift r2) (fun _ => k2)).
Proof.
  intros Hr Hk log. unfold bind, lift.
  destruct r1 as [[]|e1], r2 as [[]|e2]; simpl in Hr; try contradiction.
  - apply Hk.
  - destruct e1; contradiction.
  - split; [reflexivity | exact Hr].
Qed.

Lemma same_run_refl {A} (m : M A) : same_run m m.
Proof. intros log. split; [reflexivity | apply agree_refl]. Qed.

Section TransposedEntryPoints.

Context {backend : RawBackend}.

Lemma forward_same_run (ctx : GlobalContext) (c1 c2 : CheckedFrom)
    (i1 i2 w1 w2 : TensorArg) (padding stride dilation : list Z) (groups : Z)
    (bm dt tf : bool) :
  tensor i1 = tensor i2 -> tensor w1 = tensor w2 ->
  same_run
    (cudnn_convolution_forward ctx c1 i1 w1 padding stride dilation groups bm dt tf)
    (cudnn_convolution_forward ctx c2 i2 w2 padding stride dilation groups bm dt tf).
Proof.
  intros Hi Hw. unfold cudnn_convolution_forward.
  apply same_run_check.
  { unfold checkAllSameType. rewrite Hi, Hw. apply TORCH_CHECK_agree. }
  apply same_run_check.
  { unfold checkAllSameGPU. rewrite Hi, Hw. apply TORCH_CHECK_agree. }
  rewrite Hi, Hw. cbv zeta. destruct (numel _ =? 0); [apply same_run_refl|].
  apply same_run_check; [|apply same_run_refl].
  apply convolution_shape_check_agree; auto.
Qed.

Lemma backward_input_same_run (ctx : GlobalContext) (c1 c2 : CheckedFrom)
    (input_size : list Z) (g1 g2 w1 w2 : TensorArg) (padding stride dilation : list Z)
    (groups : Z) (bm dt tf : bool) :
  tensor g1 = tensor g2 -> tensor w1 = tensor w2 ->
  same_run
    (cudnn_convolution_backward_input_c ctx c1 input_size g1 w1
       padding stride dilation groups bm dt tf)
    (cudnn_convolution_backward_input_c ctx c2 input_size g2 w2
       padding stride dilation groups bm dt tf).
Proof.
  intros Hg Hw. unfold cudnn_convolution_backward_input_c.
  apply same_run_check.
  { unfold checkAllSameType. rewrite Hg, Hw. apply TORCH_CHECK_agree. }
  apply same_run_check.
  { unfold checkAllSameGPU. rewrite Hg, Hw. apply TORCH_CHECK_agree. }
  rewrite Hg, Hw. cbv zeta.
  apply same_run_check; [|apply same_run_refl].
  apply convolution_shape_check_agree; auto.
Qed.

(** X12: the transposed entry points are the dual plain ones.
    [cudnn_convolution_transpose_backward_input] on (grad_output, weight)
    runs as [cudnn_convolution] on the same two tensors, and
    [cudnn_convolution_transpose] on (input, weight) runs as
    [cudnn_convolution_backward_input] asked for the transposed size of
    (input, weight): the same backend calls are logged and the same
    result or error is returned, up to the text of an InvalidArgument
    (which names another call site and argument). *)
Theorem transposed_entry_points_run_the_dual_dispatchers (ctx : GlobalContext)
    (a weight : Tensor) (padding output_padding stride dilation : list Z) (groups : Z)
    (benchmark deterministic allow_tf32 : bool) :
  same_run
    (cudnn_convolution_transpose_backward_input ctx a weight padding stride dilation
       groups benchmark deterministic allow_tf32)
    (cudnn_convolution ctx a weight padding stride dilation
       groups benchmark deterministic allow_tf32) /\
  same_run
    (cudnn_convolution_transpose ctx a weight padding output_padding stride dilation
       groups benchmark deterministic allow_tf32)
    (cudnn_convolution_backward_input ctx
       (conv_input_size (sizes a) (sizes weight) padding output_padding stride dilation
          groups)
       a weight padding stride dilation groups benchmark deterministic allow_tf32).
Proof.
  split.
  - unfold cudnn_convolution_transpose_backward_input, cudnn_convolution.
    apply forward_same_run; reflexivity.
  - unfold cudnn_convolution_transpose, cudnn_convolution_transpose_forward,
      cudnn_convolution_backward_input.
    cbn [tensor]. apply backward_input_same_run; reflexivity.
Qed.

(** X13: [cudnn_convolution_transpose_backward], on every input, calls
    the forward primitive only if grad-input is requested and the
    backward-weight primitive only if grad-weight is requested, each at
    most once and in this order; when it succeeds with grad-weight
    requested the backward-weight primitive was called; and when the
    grad-input computation fails, its error is returned and the
    grad-weight computation is not started. *)
Theorem transpose_backward_calls_follow_the_mask (ctx : GlobalContext)
    (input grad_output_t weight : Tensor)
    (padding output_padding stride dilation : list Z) (groups : Z)
    (benchmark deterministic allow_tf32 : bool) (output_mask : bool * bool) (log : Log) :
  let grad_output := contiguous grad_output_t (suggest_memory_format input) in
  let outcome :=
    cudnn_convolution_transpose_backward ctx input grad_output_t weight
      padding output_padding stride dilation groups benchmark deterministic allow_tf32
      output_mask log in
  let grad_input_step :=
    cudnn_convolution_transpose_backward_input ctx grad_output weight
      padding stride dilation groups benchmark deterministic allow_tf32 log in
  exists calls1 calls2,
    snd outcome = (log ++ calls1 ++ calls2)%list /\
    (calls1 = [] \/ fst output_mask = true /\ primitives calls1 = [ForwardOut]) /\
    (calls2 = [] \/ snd output_mask = true /\ primitives calls2 = [BackwardWeightOut]) /\
    (is_ok (fst outcome) = true -> snd output_mask = true ->
     primitives calls2 = [BackwardWeightOut]) /\
    (fst output_mask = true ->
     forall e, fst grad_input_step = Raise e -> outcome = (Raise e, snd grad_input_step)).
Proof.
  intros grad_output outcome grad_input_step. subst outcome grad_input_step.
  change (cudnn_convolution_transpose_backward ctx input grad_output_t weight
            padding output_padding stride dilation groups benchmark deterministic
            allow_tf32 output_mask)
    with (masked_pair output_mask
            (cudnn_convolution_transpose_backward_input ctx grad_output weight
               padding stride dilation groups benchmark deterministic allow_tf32)
            (cudnn_convolution_transpose_backward_weight (sizes weight) grad_output input
               padding stride dilation groups benchmark deterministic allow_tf32)).
  destruct (masked_pair_calls output_mask
              (cudnn_convolution_transpose_backward_input ctx grad_output weight
                 padding stride dilation groups benchmark deterministic allow_tf32)
              (cudnn_convolution_transpose_backward_weight (sizes weight) grad_output input
                 padding stride dilation groups benchmark deterministic allow_tf32)
              ForwardOut BackwardWeightOut log)
    as (calls1 & calls2 & Hlog & H1 & H2 & Hok & Hfail).
  - discriminate.
  - intros l. apply forward_one_call.
  - intros l. apply backward_weight_one_call.
  - exists calls1, calls2. split; [exact Hlog|].
    assert (calls2 = [] \/ snd output_mask = true /\ primitives calls2 = [BackwardWeightOut])
      as H2'.
    { destruct H2 as [-> | (Hm & call & -> & Hp)]; [now left|].
      right. split; [assumption|]. unfold primitives. cbn. now rewrite Hp. }
    split; [|split; [exact H2'|split; [|exact Hfail]]].
    + destruct H1 as [-> | (Hm & call & -> & Hp)]; [now left|].
      right. split; [assumption|]. unfold primitives. cbn. now rewrite Hp.
    + intros Hsucc Hm. destruct (Hok Hsucc) as [_ Hc2].
      destruct H2' as [-> | [_ ->]]; [now exfalso; apply Hc2 | reflexivity].
Qed.

(** X14: the fused dispatchers check nothing about their operands.
    Whatever the dtypes, devices and ranks of input, weight, residual
    and bias, as soon as the allocated output is not empty and a bias is
    at hand (the caller's, or zeros of shape [{output.size(1)}]) each
    makes exactly one call of the fused primitive, on the operands in
    the resolved layout, with benchmark and deterministic off, and
    returns its outcome as it is; [cudnn_convolution_relu] passes the
    unwritten output as residual with scale 0,
    [cudnn_convolution_add_relu] the caller's residual with the caller's
    scale converted to [float] (so 16777217 arrives as 16777216), or 1
    when none is given. *)
Theorem fused_dispatchers_do_not_validate (ctx : GlobalContext)
    (input_t weight_t z_t : Tensor) (alpha : option Z) (bias_t : option Tensor)
    (stride padding dilation : list Z) (groups : Z) (log : Log) (bias : Tensor) :
  let mf := cudnn_conv_suggest_memory_format input_t weight_t in
  let output := allocated_output ctx input_t weight_t padding stride dilation in
  let input := contiguous input_t mf in
  let weight := contiguous weight_t mf in
  let scale := match alpha with Some a => Scalar_to_float a | None => 1 end in
  numel output <> 0 ->
  bias_t = Some bias \/
  (bias_t = None /\ exists n, nth_error (sizes output) 1 = Some n /\ bias = zeros [n] output) ->
  cudnn_convolution_relu ctx input_t weight_t bias_t stride padding dilation groups log
  = (fused_primitive backend output input weight output 0 bias
       stride padding dilation groups false false (allowTF32CuDNN ctx),
     (log ++ [mkBackendCall (fused_tag backend) output [input; weight; output; bias]
                (Some 0) (padding, stride, dilation, groups)
                false false (allowTF32CuDNN ctx)])%list) /\
  cudnn_convolution_add_relu ctx input_t weight_t z_t alpha bias_t
    stride padding dilation groups log
  = (fused_primitive backend output input weight z_t scale bias
       stride padding dilation groups false false (allowTF32CuDNN ctx),
     (log ++ [mkBackendCall (fused_tag backend) output [input; weight; z_t; bias]
                (Some scale) (padding, stride, dilation, groups)
                false false (allowTF32CuDNN ctx)])%list).
Proof.
  intros mf output input weight scale Hne Hbias.
  assert (bias_or_zeros bias_t output log = (Ok bias, log)) as Hb.
  { destruct Hbias as [-> | (-> & n & Hn & ->)]; [reflexivity|].
    unfold bias_or_zeros, bind, lift, size. now rewrite Hn. }
  apply Z.eqb_neq in Hne.
  unfold cudnn_convolution_relu, cudnn_convolution_add_relu. cbv zeta.
  cbn [sizes scalar_type contiguous].
  fold (allocated_output ctx input_t weight_t padding stride dilation). fold output.
  rewrite Hne. unfold bind. rewrite Hb, !raw_add_relu_run. split; reflexivity.
Qed.

End TransposedEntryPoints.

(** ** The shape check on inputs of low rank *)

(** X15: on an input of rank 0 or 1, [convolution_shape_check] never
    gets to report the rank: [input->dim() - 2] is negative and becomes a
    [size_t] close to [2^64], so the first [check_args] fails with "Not
    enough padding values", expecting [2^64 + rank - 2] of them, whatever
    the padding is.  On an input of rank 2 with empty padding, stride and
    dilation, the rank check is the one that fails. *)
Theorem convolution_shape_check_on_low_rank (c : CheckedFrom)
    (input weight output : TensorArg) (padding stride dilation : list Z) (groups : Z) :
  Z.of_nat (List.length padding) < 2 ^ 64 - 2 ->
  (dim (tensor input) < 2 ->
   convolution_shape_check c input weight output padding stride dilation groups
   = Raise (InvalidArgument
              ("Not enough padding values (" ++ Int.show (Z.of_nat (List.length padding))
               ++ ") supplied, expecting " ++ Int.show (2 ^ 64 + dim (tensor input) - 2)
               ++ while_checking c))) /\
  (dim (tensor input) = 2 -> padding = [] -> stride = [] -> dilation = [] ->
   convolution_shape_check c input weight output padding stride dilation groups
   = Raise (InvalidArgument
              ("Expected 3 to 5 dimensions, but got 2-dimensional tensor for "
               ++ show_arg input ++ while_checking c))).
Proof.
  intros Hlen. split.
  - intros Hdim.
    assert (0 <= dim (tensor input)) as Hpos by (unfold dim; lia).
    assert (Int.to_size_t (dim (tensor input) - 2) = 2 ^ 64 + dim (tensor input) - 2) as E.
    { unfold Int.to_size_t.
      replace (dim (tensor input) - 2) with (2 ^ 64 + dim (tensor input) - 2 + (-1) * 2 ^ 64)
        by lia.
      rewrite Z.mod_add by lia. apply Z.mod_small. lia. }
    unfold convolution_shape_check, check_args. rewrite E.
    replace (Z.of_nat (List.length padding) <=? 2 ^ 64 + dim (tensor input) - 2) with true
      by (symmetry; apply Z.leb_le; lia).
    rewrite TORCH_CHECK_passed.
    replace (Z.of_nat (List.length padding) >=? 2 ^ 64 + dim (tensor input) - 2) with false
      by (symmetry; rewrite Z.geb_leb; apply Z.leb_gt; lia).
    rewrite TORCH_CHECK_failed. reflexivity.
  - intros Hdim -> -> ->.
    unfold convolution_shape_check, checkDimRange. rewrite Hdim. reflexivity.
Qed.

(** ** Shapes through a transposed convolution and back *)

Lemma conv_output_of_input_dim (output kernel pad output_padding stride dilation : Z) :
  0 <= output_padding < stride ->
  conv_output_dim (conv_input_dim output kernel pad output_padding stride dilation)
    kernel pad stride dilation = output.
Proof.
  intros Hop. unfold conv_output_dim, conv_input_dim.
  replace ((output - 1) * stride - 2 * pad + dilation * (kernel - 1) + output_padding + 1
           + 2 * pad - dilation * (kernel - 1) - 1)
    with ((output - 1) * stride + output_padding) by lia.
  rewrite Z.div_add_l by lia. rewrite Z.div_small by lia. lia.
Qed.

Lemma nth_map_seq (F : nat -> Z) (n i : nat) :
  (i < n)%nat -> nth i (map F (seq 0 n)) 0 = F i.
Proof.
  intros Hi.
  rewrite (nth_indep _ 0 (F 0%nat)) by now rewrite length_map, length_seq.
  rewrite map_nth, seq_nth by assumption. reflexivity.
Qed.

(** On whole shapes: the forward size of the transposed size is the
    shape one started from, when every output_padding entry is below its
    stride and the channel count is the weight's [size(0)]. *)
Lemma conv_output_of_input_size (n out_channels in_channels groups : Z)
    (spatial kernel padding output_padding stride dilation : list Z) :
  (forall i, (i < List.length spatial)%nat ->
             0 <= nth i output_padding 0 < nth i stride 0) ->
  conv_output_size
    (conv_input_size (n :: out_channels :: spatial) (out_channels :: in_channels :: kernel)
       padding output_padding stride dilation groups)
    (out_channels :: in_channels :: kernel) padding stride dilation
  = n :: out_channels :: spatial.
Proof.
  intros Hop. unfold conv_input_size, conv_output_size.
  rewrite length_map, length_seq. do 2 f_equal.
  transitivity (map (fun i => (fun x => x) (nth i spatial 0))
                  (seq 0 (List.length spatial))).
  - apply map_ext_in. intros i Hi. apply in_seq in Hi.
    rewrite nth_map_seq by lia.
    apply conv_output_of_input_dim. apply Hop. lia.
  - rewrite (map_nth_seq spatial (fun x => x) _ eq_refl). apply map_id.
Qed.

Section TransposeShapes.

Context {backend : RawBackend}.
Hypothesis in_place : writes_in_place backend.

(** X16: the gradient of a transposed convolution with respect to its
    input has the shape of that input.  If [cudnn_convolution_transpose]
    succeeds on an input of shape [n :: out_channels :: spatial] with a
    weight whose [size(0)] is [out_channels], every output_padding entry
    being non-negative and below its stride, then
    [cudnn_convolution_transpose_backward_input], given a gradient of the
    shape of that result, returns on success a tensor of the shape of
    the input. *)
Theorem transpose_backward_input_recovers_input_shape (ctx : GlobalContext)
    (input weight grad_output result grad_input : Tensor)
    (n out_channels in_channels : Z) (spatial kernel : list Z)
    (padding output_padding stride dilation : list Z) (groups : Z)
    (bm dt tf bm' dt' tf' : bool) (log1 log1' log2 log2' : Log) :
  sizes input = n :: out_channels :: spatial ->
  sizes weight = out_channels :: in_channels :: kernel ->
  (forall i, (i < List.length spatial)%nat ->
             0 <= nth i output_padding 0 < nth i stride 0) ->
  cudnn_convolution_transpose ctx input weight padding output_padding stride dilation
    groups bm dt tf log1 = (Ok result, log1') ->
  sizes grad_output = sizes result ->
  cudnn_convolution_transpose_backward_input ctx grad_output weight
    padding stride dilation groups bm' dt' tf' log2 = (Ok grad_input, log2') ->
  sizes grad_input = sizes input.
Proof.
  intros Hin Hw Hop Hfwd Hgo Hbwd.
  apply (backward_input_ok_geometry in_place) in Hfwd. destruct Hfwd as (_ & Hres & _).
  apply (forward_ok_geometry in_place) in Hbwd. destruct Hbwd as (_ & Hgi & _).
  rewrite Hgi. unfold allocated_output, empty_cuda in *. cbn [sizes tensor] in *.
  rewrite Hgo, Hres, Hin, Hw.
  now apply conv_output_of_input_size.
Qed.

End TransposeShapes.

(** ** Concrete runs *)

Lemma setConvolutionParams_fills_zeroed_struct_witness :
  setConvolutionParams ReferenceDiagnostics.getCudnnDataType Reference.ctx memset_zero
    ReferenceDiagnostics.input2d ReferenceDiagnostics.weight2d [1; 1] [2; 2] [1; 1]
    2 true false
  = Ok (Params.mk 0 CUDNN_DATA_HALF [2; 4; 8; 8; 0] 4 ChannelsLast [6; 2; 3; 3; 0]
          [1; 1; 0] [2; 2; 0] [1; 1; 0] 2 true false).
Proof.
  apply (proj1 (proj2 (setConvolutionParams_fills_zeroed_struct
                         ReferenceDiagnostics.getCudnnDataType Reference.ctx memset_zero
                         ReferenceDiagnostics.input2d ReferenceDiagnostics.weight2d
                         [1; 1] [2; 2] [1; 1] 2 true false
                         ltac:(unfold dim; cbn; lia) eq_refl
                         ltac:(unfold max_dim; cbn; lia) eq_refl eq_refl))
           CUDNN_DATA_HALF eq_refl).
Defined.

Lemma repro_from_args_names_the_call_witness :
  exists params,
    setConvolutionParams ReferenceDiagnostics.getCudnnDataType Reference.ctx memset_zero
      ReferenceDiagnostics.input2d ReferenceDiagnostics.weight2d [1; 1] [2; 2] [1; 1]
      2 true false = Ok params /\
    occurs_in
      ("torch.backends.cudnn.deterministic = " ++ pybool true ++ nl
       ++ "torch.backends.cudnn.allow_tf32 = " ++ pybool false ++ nl
       ++ "data = torch.randn(" ++ ReferenceDiagnostics.show_ints [2; 4; 8; 8] ++ ", dtype=")
      (repro_from_args ReferenceDiagnostics.show_ints
         Reference.ctx_benchmark_deterministic params) /\
    occurs_in
      ("net = torch.nn.Conv" ++ Int.show 2 ++ "d("
       ++ Int.show 4 ++ ", " ++ Int.show 6 ++ ", "
       ++ "kernel_size=" ++ ReferenceDiagnostics.show_ints [3; 3] ++ ", "
       ++ "padding=" ++ ReferenceDiagnostics.show_ints [1; 1] ++ ", "
       ++ "stride=" ++ ReferenceDiagnostics.show_ints [2; 2] ++ ", "
       ++ "dilation=" ++ ReferenceDiagnostics.show_ints [1; 1] ++ ", "
       ++ "groups=" ++ Int.show 2 ++ ")" ++ nl)
      (repro_from_args ReferenceDiagnostics.show_ints
         Reference.ctx_benchmark_deterministic params).
Proof.
  apply (repro_from_args_names_the_call
           ReferenceDiagnostics.getCudnnDataType ReferenceDiagnostics.show_ints
           Reference.ctx Reference.ctx_benchmark_deterministic memset_zero
           ReferenceDiagnostics.input2d ReferenceDiagnostics.weight2d
           [1; 1] [2; 2] [1; 1] 2 true false CUDNN_DATA_HALF eq_refl
           ltac:(unfold dim; cbn; lia) eq_refl eq_refl eq_refl eq_refl);
    repeat constructor; unfold Int.in_int; lia.
Defined.

Lemma print_ConvolutionParams_shows_all_slots_witness :
  exists params,
    setConvolutionParams ReferenceDiagnostics.getCudnnDataType Reference.ctx memset_zero
      Reference.input5 Reference.weight3 [1] [2] [1] 1 false true = Ok params /\
    print_ConvolutionParams ReferenceDiagnostics.cudnnTypeToString
      ReferenceDiagnostics.show_ints params
    = "ConvolutionParams " ++ nl
      ++ "    data_type = CUDNN_DATA_FLOAT" ++ nl
      ++ "    padding = [1, 0, 0]" ++ nl
      ++ "    stride = [2, 0, 0]" ++ nl
      ++ "    dilation = [1, 0, 0]" ++ nl
      ++ "    groups = 1" ++ nl
      ++ "    deterministic = false" ++ nl
      ++ "    allow_tf32 = true" ++ nl.
Proof.
  apply (print_ConvolutionParams_shows_all_slots
           ReferenceDiagnostics.getCudnnDataType ReferenceDiagnostics.cudnnTypeToString
           ReferenceDiagnostics.show_ints Reference.ctx memset_zero
           Reference.input5 Reference.weight3 [1] [2] [1] 1 false true
           CUDNN_DATA_FLOAT eq_refl
           ltac:(unfold dim; cbn; lia) eq_refl ltac:(unfold max_dim; cbn; lia)
           eq_refl eq_refl);
    repeat constructor; unfold Int.in_int; lia.
Defined.

Lemma forward_reaches_backend_only_when_validated_witness :
  fst (cudnn_convolution_forward (backend := Reference.backend) Reference.ctx
         "cudnn_convolution" (mkTensorArg Reference.input5 "input" 1)
         (mkTensorArg Reference.weight3 "weight" 2) [0] [1] [1] 1 false false true [])
  = Ok (Reference.cuda_tensor [1; 1; 3] [30; 30; 30]).
Proof.
  destruct (forward_reaches_backend_only_when_validated (backend := Reference.backend)
              Reference.ctx "cudnn_convolution" (mkTensorArg Reference.input5 "input" 1)
              (mkTensorArg Reference.weight3 "weight" 2) [0] [1] [1] 1 false false true
              [] _ eq_refl) as (_ & _ & _ & _ & _ & H).
  exact H.
Defined.

Lemma backward_input_reaches_backend_only_when_validated_witness :
  fst (cudnn_convolution_backward_input_c (backend := Reference.backend) Reference.ctx
         "cudnn_convolution_backward_input" [1; 1; 5]
         (mkTensorArg Reference.output3 "grad_output" 1)
         (mkTensorArg Reference.weight3 "weight" 2) [0] [1] [1] 1 false false true [])
  = Ok (Reference.cuda_tensor [1; 1; 5] [0; 0; 0; 0; 0]).
Proof.
  destruct (backward_input_reaches_backend_only_when_validated
              (backend := Reference.backend) Reference.ctx
              "cudnn_convolution_backward_input" [1; 1; 5]
              (mkTensorArg Reference.output3 "grad_output" 1)
              (mkTensorArg Reference.weight3 "weight" 2) [0] [1] [1] 1 false false true
              [] _ eq_refl) as (_ & _ & _ & _ & H).
  exact H.
Defined.

Lemma backward_weight_reaches_backend_only_when_validated_witness :
  fst (cudnn_convolution_backward_weight_c (backend := Reference.backend)
         "cudnn_convolution_backward_weight" [1; 1; 3]
         Reference.residual3 Reference.input5 [0] [1] [1] 1 false false true [])
  = Ok (Reference.cuda_tensor [1; 1; 3] [120; 120; 120]).
Proof.
  destruct (backward_weight_reaches_backend_only_when_validated
              (backend := Reference.backend)
              "cudnn_convolution_backward_weight" [1; 1; 3]
              Reference.residual3 Reference.input5 [0] [1] [1] 1 false false true
              [] _ eq_refl) as (_ & _ & _ & _ & H).
  exact H.
Defined.

Lemma results_have_the_allocated_geometry_witness :
  exists r log',
    cudnn_convolution_transpose (backend := Reference.backend) Reference.ctx
      Reference.output3 Reference.weight3 [0] [0] [1] [1] 1 false false true []
    = (Ok r, log') /\
    defined r = true /\ sizes r = [1; 1; 5] /\
    scalar_type r = kFloat /\ device r = kCUDA 0.
Proof.
  eexists. eexists. split; [cbv; reflexivity|].
  eapply (proj2 (proj2 (proj2 (results_have_the_allocated_geometry
                                 (backend := Reference.backend) reference_writes_in_place
                                 Reference.ctx Reference.output3 Reference.weight3
                                 [] [0] [0] [1] [1] 1 false false true [] _ _)))).
  cbv. reflexivity.
Defined.

Lemma backward_gradients_have_the_shapes_of_their_operands_witness :
  exists grad_input grad_weight log',
    cudnn_convolution_backward (backend := Reference.backend) Reference.ctx
      Reference.input5 Reference.residual3 Reference.weight3 [0] [1] [1] 1
      false false true (true, true) []
    = (Ok (grad_input, grad_weight), log') /\
    (defined grad_input = true /\ sizes grad_input = [1; 1; 5]) /\
    (defined grad_weight = true /\ sizes grad_weight = [1; 1; 3]).
Proof.
  eexists. eexists. eexists. split; [cbv; reflexivity|].
  apply (backward_gradients_have_the_shapes_of_their_operands
           (backend := Reference.backend) reference_writes_in_place
           Reference.ctx Reference.input5 Reference.residual3 Reference.weight3
           [0] [1] [1] 1 false false true (true, true) [] _ _ _ eq_refl).
Defined.

Lemma backward_calls_follow_the_mask_witness :
  primitives
    (snd (cudnn_convolution_backward (backend := Reference.backend) Reference.ctx
            Reference.input5 Reference.residual3 Reference.weight3 [0] [1] [1] 1
            false false true (true, true) []))
  = [BackwardInputOut; BackwardWeightOut].
Proof.
  destruct (backward_calls_follow_the_mask (backend := Reference.backend) Reference.ctx
              Reference.input5 Reference.residual3 Reference.weight3 [0] [1] [1] 1
              false false true (true, true) [] ltac:(discriminate))
    as (calls1 & calls2 & Hlog & _ & _ & Hok & _).
  rewrite Hlog. exact (Hok eq_refl).
Defined.

Lemma fused_dispatchers_do_not_validate_witness :
  fst (cudnn_convolution_relu (backend := Reference.backend) Reference.ctx
         Reference.input5 (contiguous Reference.weight3 ChannelsLast) None
         [1] [0] [1] 1 [])
  = Ok (Reference.cuda_tensor [1; 1; 3] [30; 30; 30]).
Proof.
  destruct (fused_dispatchers_do_not_validate (backend := Reference.backend) Reference.ctx
              Reference.input5 (contiguous Reference.weight3 ChannelsLast)
              Reference.residual3 None None [1] [0] [1] 1 []
              (zeros [1] (allocated_output Reference.ctx Reference.input5
                            (contiguous Reference.weight3 ChannelsLast) [0] [1] [1]))
              ltac:(discriminate)
              (or_intror (conj eq_refl (ex_intro _ 1 (conj eq_refl eq_refl)))))
    as [Hrelu _].
  rewrite Hrelu. reflexivity.
Defined.

Lemma convolution_shape_check_on_low_rank_witness :
  convolution_shape_check "cudnn_convolution"
    (mkTensorArg (Reference.cuda_tensor [5] [1; 2; 3; 4; 5]) "input" 1)
    (mkTensorArg Reference.weight3 "weight" 2)
    (mkTensorArg Reference.output3 "result" 0) [0] [1] [1] 1
  = Raise (InvalidArgument
      "Not enough padding values (1) supplied, expecting 18446744073709551615 (while checking arguments for cudnn_convolution)").
Proof.
  apply (proj1 (convolution_shape_check_on_low_rank "cudnn_convolution"
                  (mkTensorArg (Reference.cuda_tensor [5] [1; 2; 3; 4; 5]) "input" 1)
                  (mkTensorArg Reference.weight3 "weight" 2)
                  (mkTensorArg Reference.output3 "result" 0) [0] [1] [1] 1
                  ltac:(cbn; lia))
           ltac:(unfold dim; cbn; lia)).
Defined.

Lemma transpose_backward_input_recovers_input_shape_witness :
  exists result grad_input log1 log2,
    cudnn_convolution_transpose (backend := Reference.backend) Reference.ctx
      Reference.output3 Reference.weight3 [0] [0] [1] [1] 1 false false true []
    = (Ok result, log1) /\
    cudnn_convolution_transpose_backward_input (backend := Reference.backend) Reference.ctx
      Reference.input5 Reference.weight3 [0] [1] [1] 1 false false true []
    = (Ok grad_input, log2) /\
    sizes grad_input = sizes Reference.output3.
Proof.
  do 4 eexists. split; [cbv; reflexivity|]. split; [cbv; reflexivity|].
  eapply (transpose_backward_input_recovers_input_shape (backend := Reference.backend)
            reference_writes_in_place Reference.ctx
            Reference.output3 Reference.weight3 Reference.input5 _ _
            1 1 1 [3] [3] [0] [0] [1] [1] 1 false false true false false true
            [] _ [] _ eq_refl eq_refl).
  - intros i Hi. destruct i as [|i]; [cbn; lia | cbn in Hi; lia].
  - cbv. reflexivity.
  - reflexivity.
  - cbv. reflexivity.
Defined.

(** ** Checks come first *)

Section ChecksFirst.

Context {backend : RawBackend}.

(** X2: in the forward, backward-input and backward-weight dispatchers
    every check comes before the backend call.  If the dtype check, the
    device check or the shape check fails (or, in the forward
    dispatcher, the allocated output is empty), the log of backend calls
    is left as it was; if they all pass, exactly one call is appended, of
    the dispatcher's own primitive, with the benchmark, deterministic and
    allow_tf32 flags the dispatcher was given. *)
Theorem dispatchers_fail_before_backend (ctx : GlobalContext) (c : CheckedFrom)
    (a b : TensorArg) (shape : list Z) (padding stride dilation : list Z) (groups : Z)
    (benchmark deterministic allow_tf32 : bool) (log : Log) :
  let calls_exactly_when (validated : Prop) (outcome : Result Tensor * Log)
        (prim : Primitive) : Prop :=
    (~ validated -> snd outcome = log) /\
    (validated ->
     exists call, snd outcome = (log ++ [call])%list /\ primitive call = prim /\
                  call_flags call = (benchmark, deterministic, allow_tf32)) in
  let output := allocated_output ctx (tensor a) (tensor b) padding stride dilation in
  let grad_input :=
    empty_cuda ctx shape (scalar_type (tensor a))
      (cudnn_conv_suggest_memory_format (tensor a) (tensor b)) in
  let layout := cudnn_conv_suggest_memory_format (tensor b) (tensor a) in
  let grad_output_contig := mkTensorArg (contiguous (tensor a) layout) "grad_output" 1 in
  let input_contig := mkTensorArg (contiguous (tensor b) layout) "input" 2 in
  let grad_weight := empty_options shape (tensor grad_output_contig) layout in
  calls_exactly_when
    (checkAllSameType c a b = Ok tt /\ checkAllSameGPU c a b = Ok tt /\
     numel output <> 0 /\
     convolution_shape_check c a b (mkTensorArg output "result" 0)
       padding stride dilation groups = Ok tt)
    (cudnn_convolution_forward ctx c a b padding stride dilation groups
       benchmark deterministic allow_tf32 log) ForwardOut /\
  calls_exactly_when
    (checkAllSameType c a b = Ok tt /\ checkAllSameGPU c a b = Ok tt /\
     convolution_shape_check c (mkTensorArg grad_input "result" 0) b a
       padding stride dilation groups = Ok tt)
    (cudnn_convolution_backward_input_c ctx c shape a b padding stride dilation groups
       benchmark deterministic allow_tf32 log) BackwardInputOut /\
  calls_exactly_when
    (checkAllSameType c grad_output_contig input_contig = Ok tt /\
     checkAllSameGPU c grad_output_contig input_contig = Ok tt /\
     convolution_shape_check c input_contig (mkTensorArg grad_weight "result" 0)
       grad_output_contig padding stride dilation groups = Ok tt)
    (cudnn_convolution_backward_weight_c c shape (tensor a) (tensor b)
       padding stride dilation groups benchmark deterministic allow_tf32 log)
    BackwardWeightOut.
Proof.
  cbv zeta. split; [|split].
  - rewrite forward_run. cbv zeta.
    destruct (checkAllSameType c a b) as [[]|e];
      [|split; [reflexivity | intros (H & _); discriminate]].
    destruct (checkAllSameGPU c a b) as [[]|e];
      [|split; [reflexivity | intros (_ & H & _); discriminate]].
    destruct (numel _ =? 0) eqn:Hn.
    { apply Z.eqb_eq in Hn. split; [reflexivity | intros (_ & _ & H & _); contradiction]. }
    destruct (convolution_shape_check _ _ _ _ _ _ _ _) as [[]|e];
      [|split; [reflexivity | intros (_ & _ & _ & H); discriminate]].
    apply Z.eqb_neq in Hn. split.
    + intros H. exfalso. apply H. auto.
    + intros _. eexists. split; [reflexivity|]. split; reflexivity.
  - rewrite backward_input_run. cbv zeta.
    destruct (checkAllSameType c a b) as [[]|e];
      [|split; [reflexivity | intros (H & _); discriminate]].
    destruct (checkAllSameGPU c a b) as [[]|e];
      [|split; [reflexivity | intros (_ & H & _); discriminate]].
    destruct (convolution_shape_check _ _ _ _ _ _ _ _) as [[]|e];
      [|split; [reflexivity | intros (_ & _ & H); discriminate]].
    split.
    + intros H. exfalso. apply H. auto.
    + intros _. eexists. split; [reflexivity|]. split; reflexivity.
  - rewrite backward_weight_run. cbv zeta.
    destruct (checkAllSameType c _ _) as [[]|e];
      [|split; [reflexivity | intros (H & _); discriminate]].
    destruct (checkAllSameGPU c _ _) as [[]|e];
      [|split; [reflexivity | intros (_ & H & _); discriminate]].
    destruct (convolution_shape_check _ _ _ _ _ _ _ _) as [[]|e];
      [|split; [reflexivity | intros (_ & _ & H); discriminate]].
    split.
    + intros H. exfalso. apply H. auto.
    + intros _. eexists. split; [reflexivity|]. split; reflexivity.
Qed.

(** C10: [cudnn_convolution_transpose_backward] has no case for an empty
    input: it never looks at the number of elements of [input].  On
    every input and for every mask, when it succeeds, a requested
    grad-input is what [cudnn_convolution_transpose_backward_input]
    produces, namely the output of the forward dispatcher on
    (grad_output, weight): the allocated output itself when that is empty,
    and otherwise what the forward primitive wrote in the one call logged
    for it; a requested grad-weight is what the backward-weight primitive
    wrote, called with input and grad_output in swapped roles on a fresh
    unwritten buffer of the weight's sizes, and never a tensor of zeros
    put in its place; a result that was not requested is undefined and
    costs no call. *)
Theorem transpose_backward_has_no_empty_input_case (ctx : GlobalContext)
    (input grad_output_t weight : Tensor)
    (padding output_padding stride dilation : list Z) (groups : Z)
    (benchmark deterministic allow_tf32 : bool) (output_mask : bool * bool)
    (log log' : Log) (grad_input grad_weight : Tensor) :
  cudnn_convolution_transpose_backward ctx input grad_output_t weight
    padding output_padding stride dilation groups benchmark deterministic allow_tf32
    output_mask log
  = (Ok (grad_input, grad_weight), log') ->
  let grad_output := contiguous grad_output_t (suggest_memory_format input) in
  let mf := cudnn_conv_suggest_memory_format grad_output weight in
  let forward_output := allocated_output ctx grad_output weight padding stride dilation in
  let layout := cudnn_conv_suggest_memory_format grad_output input in
  let grad_weight_buffer :=
    mkTensor true (sizes weight) (scalar_type input) (device input) layout Uninitialized in
  exists calls1 calls2,
    log' = (log ++ calls1 ++ calls2)%list /\
    (if fst output_mask then
       (numel forward_output = 0 /\ grad_input = forward_output /\ calls1 = []) \/
       (numel forward_output <> 0 /\
        calls1 = [mkBackendCall ForwardOut forward_output
                    [contiguous grad_output mf; contiguous weight mf] None
                    (padding, stride, dilation, groups)
                    benchmark deterministic allow_tf32] /\
        raw_cudnn_convolution_forward_out forward_output
          (contiguous grad_output mf) (contiguous weight mf)
          padding stride dilation groups benchmark deterministic allow_tf32
        = Ok grad_input)
     else grad_input = undefined_tensor /\ calls1 = []) /\
    (if snd output_mask then
       calls2 = [mkBackendCall BackwardWeightOut grad_weight_buffer
                   [contiguous input layout; contiguous grad_output layout] None
                   (padding, stride, dilation, groups)
                   benchmark deterministic allow_tf32] /\
       raw_cudnn_convolution_backward_weight_out grad_weight_buffer
         (contiguous input layout) (contiguous grad_output layout)
         padding stride dilation groups benchmark deterministic allow_tf32
       = Ok grad_weight
     else grad_weight = undefined_tensor /\ calls2 = []).
Proof.
  intros H grad_output mf forward_output layout grad_weight_buffer.
  unfold cudnn_convolution_transpose_backward in H. fold grad_output in H.
  apply bind_ok in H as (gi & log1 & Hgi & H).
  apply bind_ok in H as (gw & log2 & Hgw & H).
  unfold ret in H. inversion H; subst gi gw log2. clear H.
  assert (exists calls1,
            log1 = (log ++ calls1)%list /\
            (if fst output_mask then
               (numel forward_output = 0 /\ grad_input = forward_output /\ calls1 = []) \/
               (numel forward_output <> 0 /\
                calls1 = [mkBackendCall ForwardOut forward_output
                            [contiguous grad_output mf; contiguous weight mf] None
                            (padding, stride, dilation, groups)
                            benchmark deterministic allow_tf32] /\
                raw_cudnn_convolution_forward_out forward_output
                  (contiguous grad_output mf) (contiguous weight mf)
                  padding stride dilation groups benchmark deterministic allow_tf32
                = Ok grad_input)
             else grad_input = undefined_tensor /\ calls1 = []))
    as (calls1 & -> & Hfirst).
  { destruct (fst output_mask).
    - unfold cudnn_convolution_transpose_backward_input in Hgi.
      rewrite forward_run in Hgi. cbv zeta in Hgi. cbn [tensor] in Hgi.
      fold mf forward_output in Hgi.
      destruct (checkAllSameType _ _ _) as [[]|e]; [|discriminate].
      destruct (checkAllSameGPU _ _ _) as [[]|e]; [|discriminate].
      destruct (numel forward_output =? 0) eqn:Hn.
      + apply Z.eqb_eq in Hn. inversion Hgi; subst.
        exists []. rewrite app_nil_r. split; [reflexivity|]. left. auto.
      + apply Z.eqb_neq in Hn.
        destruct (convolution_shape_check _ _ _ _ _ _ _ _) as [[]|e]; [|discriminate].
        injection Hgi as Hr Hlog.
        eexists. split; [symmetry; exact Hlog|]. right. auto.
    - unfold ret in Hgi. inversion Hgi; subst.
      exists []. rewrite app_nil_r. auto. }
  destruct (snd output_mask).
  - unfold cudnn_convolution_transpose_backward_weight in Hgw.
    rewrite backward_weight_run in Hgw. cbv zeta in Hgw. cbn [tensor] in Hgw.
    destruct (checkAllSameType _ _ _) as [[]|e]; [|discriminate].
    destruct (checkAllSameGPU _ _ _) as [[]|e]; [|discriminate].
    destruct (convolution_shape_check _ _ _ _ _ _ _ _) as [[]|e]; [|discriminate].
    injection Hgw as Hr Hlog.
    exists calls1. eexists. split; [rewrite <- Hlog, <- app_assoc; reflexivity|].
    split; [exact Hfirst|]. split; [reflexivity | exact Hr].
  - unfold ret in Hgw. inversion Hgw; subst.
    exists calls1, []. rewrite app_nil_r. auto.
Qed.

End ChecksFirst.

(** A run of X2: tensors of different dtypes never reach the backend. *)
Lemma dispatchers_fail_before_backend_witness :
  snd (cudnn_convolution_forward (backend := Reference.backend) Reference.ctx
         "cudnn_convolution"
         (mkTensorArg (mkTensor true [1; 1; 5] kHalf (kCUDA 0) Contiguous Uninitialized)
            "input" 1)
         (mkTensorArg Reference.weight3 "weight" 2) [0] [1] [1] 1 false false true [])
  = [].
Proof.
  apply (proj1 (proj1 (dispatchers_fail_before_backend (backend := Reference.backend)
                         Reference.ctx "cudnn_convolution"
                         (mkTensorArg
                            (mkTensor true [1; 1; 5] kHalf (kCUDA 0) Contiguous
                               Uninitialized) "input" 1)
                         (mkTensorArg Reference.weight3 "weight" 2)
                         [1; 1; 3] [0] [1] [1] 1 false false true []))).
  intros (H & _). discriminate H.
Defined.

(** A run of C10 on an empty batch: [cudnn_convolution_backward] returns
    zeros and logs nothing, while [cudnn_convolution_transpose_backward]
    returns the empty output of the forward dispatcher as grad-input and
    calls the backward-weight primitive for grad-weight. *)
Lemma transpose_backward_has_no_empty_input_case_witness :
  numel Reference.output_empty = 0 /\
  snd (cudnn_convolution_backward (backend := Reference.backend) Reference.ctx
         Reference.input_empty Reference.output_empty Reference.weight3
         [0] [1] [1] 1 false false true (true, true) []) = [] /\
  match
    cudnn_convolution_transpose_backward (backend := Reference.backend) Reference.ctx
      Reference.output_empty Reference.input_empty Reference.weight3
      [0] [0] [1] [1] 1 false false true (true, true) []
  with
  | (Ok (grad_input, grad_weight), log') =>
      sizes grad_input = [0; 1; 3] /\ storage grad_input = Uninitialized /\
      primitives log' = [BackwardWeightOut]
  | (Raise _, _) => False
  end.
Proof.
  split; [reflexivity|]. split; [reflexivity|].
  destruct (cudnn_convolution_transpose_backward (backend := Reference.backend)
              Reference.ctx Reference.output_empty Reference.input_empty Reference.weight3
              [0] [0] [1] [1] 1 false false true (true, true) [])
    as [[[grad_input grad_weight]|e] log'] eqn:E.
  - apply (transpose_backward_has_no_empty_input_case (backend := Reference.backend)) in E.
    destruct E as (calls1 & calls2 & -> & Hgi & Hgw & _).
    cbn [fst snd] in Hgi, Hgw. subst calls2.
    destruct Hgi as [(_ & -> & ->) | (Hne & _)].
    + repeat split.
    + exfalso. apply Hne. reflexivity.
  - cbv in E. discriminate E.
Defined.
